(** * check_assets.py: which assets of the site are referenced by its sources

    A shallow embedding of [check_assets.py] and the properties of its
    classification of assets into used and unused ones.

    Python values are modelled as follows.
    - [str] is [string]: the UTF-8 encoding of the text.  Substring
      containment and the ordering of strings by code point are the same on
      the encoded bytes as on the code points, UTF-8 being prefix-free and
      order preserving.
    - [pathlib.Path] (POSIX flavour) is a record of an anchor flag and the
      list of the path's components.
    - The file system is a tree of directories and files; a directory lists
      its entries in the order [os.scandir] reports them.
    - Exceptions, the file system and standard output are threaded through
      a state-and-exception monad [M].

    What the model leaves out: symbolic links; directories that cannot be
    listed; paths with a [..] component, which the tree does not resolve; a working directory other than the root of the tree (relative
    and absolute paths are resolved from the same root); a locale whose
    encoding is not UTF-8.  [suffix] and [stem] are those of pathlib up to
    Python 3.13. *)

From Stdlib Require Import String Ascii List Bool Arith Lia Permutation.
From Stdlib Require Import Decimal DecimalString.
From Stdlib Require Import Sorted OrderedTypeEx.
Import ListNotations.

Local Open Scope list_scope.
Local Open Scope string_scope.

(** ** Strings *)

Module Str.

(** [pattern in content] of Python: [pattern] occurs in [content] as a
    contiguous substring.  The empty pattern occurs in every string. *)
Fixpoint str_in (pattern content : string) : bool :=
  String.prefix pattern content ||
  match content with
  | EmptyString => false
  | String _ rest => str_in pattern rest
  end.

(** [s.endswith(suffix)]. *)
Fixpoint endswith (s suffix : string) : bool :=
  String.eqb s suffix ||
  match s with
  | EmptyString => false
  | String _ rest => endswith rest suffix
  end.

(** One character of [str.lower()].  Only the ASCII letters change: a code
    point outside ASCII is a multi-byte sequence of bytes above 127, left as
    it is.  (The one code point outside ASCII whose lower case is an ASCII
    letter is the Kelvin sign, lowered to k, a letter of none of the
    extensions [lower] is compared with.) *)
Definition lower_char (c : ascii) : ascii :=
  let n := nat_of_ascii c in
  if ((65 <=? n) && (n <=? 90))%nat then ascii_of_nat (n + 32) else c.

(** [s.lower()]. *)
Fixpoint lower (s : string) : string :=
  match s with
  | EmptyString => EmptyString
  | String c rest => String (lower_char c) (lower rest)
  end.

(** [s.rfind('.')]: the index of the last dot of [s], if there is one. *)
Fixpoint rfind_dot (s : string) : option nat :=
  match s with
  | EmptyString => None
  | String c rest =>
      match rfind_dot rest with
      | Some i => Some (S i)
      | None => if Ascii.eqb c "."%char then Some 0 else None
      end
  end.

(** [s[:i]] and [s[i:]]. *)
Fixpoint take (i : nat) (s : string) : string :=
  match i, s with
  | S j, String c rest => String c (take j rest)
  | _, _ => EmptyString
  end.

Fixpoint drop (i : nat) (s : string) : string :=
  match i, s with
  | S j, String _ rest => drop j rest
  | _, _ => s
  end.

(** [x in xs] for a list of strings. *)
Definition mem (x : string) (xs : list string) : bool :=
  existsb (String.eqb x) xs.

(** [sep.join(xs)]. *)
Definition join (sep : string) (xs : list string) : string :=
  String.concat sep xs.

(** [s * n]. *)
Fixpoint repeat (s : string) (n : nat) : string :=
  match n with
  | O => EmptyString
  | S m => s ++ repeat s m
  end.

(** [a < b] on strings: lexicographic by code point. *)
Definition ltb (a b : string) : bool := String.ltb a b.

End Str.

(** ** Paths *)

(** A [pathlib.PurePosixPath]: whether it is anchored at the root, and its
    components. *)
Record Path : Type := mkPath {
  absolute : bool;
  parts : list string
}.

Module PathLib.

(** [str(p)]. *)
Definition str (p : Path) : string :=
  if absolute p then "/" ++ Str.join "/" (parts p)
  else match parts p with
       | [] => "."
       | _ => Str.join "/" (parts p)
       end.

(** [p / name]. *)
Definition child (p : Path) (name : string) : Path :=
  mkPath (absolute p) (parts p ++ [name])%list.

(** [p.parent]: the path without its last component; the root and the empty
    path are their own parents. *)
Definition parent (p : Path) : Path :=
  mkPath (absolute p) (removelast (parts p)).

(** [p.name]: the last component, or the empty string when there is none. *)
Definition name (p : Path) : string := last (parts p) "".

(** [p.suffix]: from the last dot of the name on, when that dot is neither
    the first nor the last character of the name. *)
Definition suffix (p : Path) : string :=
  let n := name p in
  match Str.rfind_dot n with
  | Some i => if ((0 <? i) && (i <? String.length n - 1))%nat then Str.drop i n else ""
  | None => ""
  end.

(** [p.stem]: the name without its suffix. *)
Definition stem (p : Path) : string :=
  let n := name p in
  match Str.rfind_dot n with
  | Some i => if ((0 <? i) && (i <? String.length n - 1))%nat then Str.take i n else n
  | None => n
  end.

(** [xs[len(prefix):]] when [xs] starts with [prefix]. *)
Fixpoint strip_prefix (prefix xs : list string) : option (list string) :=
  match prefix, xs with
  | [], _ => Some xs
  | a :: prefix', b :: xs' => if String.eqb a b then strip_prefix prefix' xs' else None
  | _ :: _, [] => None
  end.

(** The components that order two paths: the anchor, then the parts. *)
Definition cparts (p : Path) : list string :=
  ((if absolute p then ["/"] else []) ++ parts p)%list.

(** [a < b] on lists of strings: lexicographic, a proper prefix first. *)
Fixpoint list_ltb (a b : list string) : bool :=
  match a, b with
  | _, [] => false
  | [], _ :: _ => true
  | x :: a', y :: b' =>
      if String.eqb x y then list_ltb a' b' else Str.ltb x y
  end.

(** [a < b] on paths. *)
Definition ltb (a b : Path) : bool := list_ltb (cparts a) (cparts b).

End PathLib.

(** ** The file system *)

(** A file has a permission to read it and its bytes; a directory lists its
    entries, each under its name, in the order of [os.scandir]. *)
#[local] Unset Elimination Schemes.
Inductive node : Type :=
| File (readable : bool) (data : string)
| Dir (entries : list (string * node)).
#[local] Set Elimination Schemes.

Module FS.

Fixpoint find_entry (name : string) (entries : list (string * node)) : option node :=
  match entries with
  | [] => None
  | (n, child) :: rest => if String.eqb name n then Some child else find_entry name rest
  end.

(** The node a list of components leads to, from [n].  Every component is
    taken for the name of an entry: a path is resolved as it is written
    only when none of its components is [..], which the tree does not
    resolve. *)
Fixpoint lookup (n : node) (ps : list string) : option node :=
  match ps with
  | [] => Some n
  | p :: ps' =>
      match n with
      | Dir entries =>
          match find_entry p entries with
          | Some child => lookup child ps'
          | None => None
          end
      | File _ _ => None
      end
  end.

(** The components run into a regular file before they are used up: the
    path asks for an entry of what is not a directory. *)
Fixpoint blocked (n : node) (ps : list string) : bool :=
  match ps with
  | [] => false
  | p :: ps' =>
      match n with
      | Dir entries =>
          match find_entry p entries with
          | Some child => blocked child ps'
          | None => false
          end
      | File _ _ => true
      end
  end.

Definition is_dir (n : node) : bool :=
  match n with Dir _ => true | File _ _ => false end.

(** The names of the sub-directories and of the other entries of a
    directory, as [os.walk] splits them. *)
Definition dirs (entries : list (string * node)) : list string :=
  map fst (filter (fun e => is_dir (snd e)) entries).

Definition nondirs (entries : list (string * node)) : list string :=
  map fst (filter (fun e => negb (is_dir (snd e))) entries).

(** [os.walk(top)], top down: the triple of a directory, then the walks of
    its sub-directories.  Nothing is produced for what is not a
    directory. *)
Fixpoint os_walk (top : Path) (n : node) : list (Path * list string * list string) :=
  match n with
  | File _ _ => []
  | Dir entries =>
      (top, dirs entries, nondirs entries) ::
      flat_map (fun e => os_walk (PathLib.child top (fst e)) (snd e)) entries
  end.

(** The entries of directory [dir] that match the pattern [*ext]. *)
Definition glob_star (dir : Path) (n : node) (ext : string) : list Path :=
  match n with
  | File _ _ => []
  | Dir entries =>
      map (PathLib.child dir)
          (filter (fun name => Str.endswith name ext) (map fst entries))
  end.

(** The pattern [**/*ext] from [dir]: the matches in [dir], then those of
    each of its sub-directories in turn. *)
Fixpoint glob_rec (dir : Path) (n : node) (ext : string) : list Path :=
  match n with
  | File _ _ => []
  | Dir entries =>
      (map (PathLib.child dir)
           (filter (fun name => Str.endswith name ext) (map fst entries)) ++
       flat_map (fun e => glob_rec (PathLib.child dir (fst e)) (snd e) ext) entries)%list
  end.

(** A name a directory can list: not empty, neither [.] nor [..], and
    without a slash. *)
Definition valid_name (name : string) : bool :=
  negb (String.eqb name "") && negb (String.eqb name ".")
  && negb (String.eqb name "..") && negb (Str.str_in "/" name).

(** Every name listed in the tree is one a directory can list. *)
Fixpoint valid_names (n : node) : bool :=
  match n with
  | File _ _ => true
  | Dir entries =>
      (fix go (es : list (string * node)) : bool :=
         match es with
         | [] => true
         | e :: rest => valid_name (fst e) && valid_names (snd e) && go rest
         end) entries
  end.

(** No directory lists a name twice. *)
Fixpoint unique_names (n : node) : bool :=
  match n with
  | File _ _ => true
  | Dir entries =>
      (fix go (es : list (string * node)) : bool :=
         match es with
         | [] => true
         | e :: rest =>
             negb (Str.mem (fst e) (map fst rest)) && unique_names (snd e) && go rest
         end) entries
  end.

End FS.

(** ** Decoding the bytes of a file *)

Module Codec.

Definition between (lo hi : nat) (c : ascii) : bool :=
  let n := nat_of_ascii c in ((lo <=? n) && (n <=? hi))%nat.

(** A continuation byte of UTF-8. *)
Definition continuation (c : ascii) : bool := between 128 191 c.

(** The second byte a three-byte lead accepts: no overlong form after E0, no
    surrogate after ED. *)
Definition second_of_3 (lead c : ascii) : bool :=
  if between 224 224 lead then between 160 191 c
  else if between 237 237 lead then between 128 159 c
  else continuation c.

(** The second byte a four-byte lead accepts: no overlong form after F0,
    nothing above U+10FFFF after F4. *)
Definition second_of_4 (lead c : ascii) : bool :=
  if between 240 240 lead then between 144 191 c
  else if between 244 244 lead then between 128 143 c
  else continuation c.

(** [bytes.decode("utf-8", errors="ignore")]: well-formed sequences are
    kept, and of an ill-formed one the bytes up to the offending byte are
    dropped; decoding resumes at the offending byte.  A sequence cut short
    by the end of the data is dropped. *)
Fixpoint decode_ignore (s : string) : string :=
  match s with
  | EmptyString => EmptyString
  | String b0 r0 =>
      if between 0 127 b0 then String b0 (decode_ignore r0)
      else if between 194 223 b0 then
        match r0 with
        | EmptyString => EmptyString
        | String b1 r1 =>
            if continuation b1 then String b0 (String b1 (decode_ignore r1))
            else decode_ignore r0
        end
      else if between 224 239 b0 then
        match r0 with
        | EmptyString => EmptyString
        | String b1 r1 =>
            if second_of_3 b0 b1 then
              match r1 with
              | EmptyString => EmptyString
              | String b2 r2 =>
                  if continuation b2
                  then String b0 (String b1 (String b2 (decode_ignore r2)))
                  else decode_ignore r1
              end
            else decode_ignore r0
        end
      else if between 240 244 b0 then
        match r0 with
        | EmptyString => EmptyString
        | String b1 r1 =>
            if second_of_4 b0 b1 then
              match r1 with
              | EmptyString => EmptyString
              | String b2 r2 =>
                  if continuation b2 then
                    match r2 with
                    | EmptyString => EmptyString
                    | String b3 r3 =>
                        if continuation b3
                        then String b0 (String b1 (String b2 (String b3 (decode_ignore r3))))
                        else decode_ignore r2
                    end
                  else decode_ignore r1
              end
            else decode_ignore r0
        end
      else decode_ignore r0
  end.


Definition CR : ascii := ascii_of_nat 13.
Definition LF : ascii := ascii_of_nat 10.

(** Reading in text mode translates the line endings CR LF and CR to LF. *)
Fixpoint universal_newlines (s : string) : string :=
  match s with
  | EmptyString => EmptyString
  | String c rest =>
      if Ascii.eqb c CR then
        match rest with
        | String c' rest' =>
            if Ascii.eqb c' LF then String LF (universal_newlines rest')
            else String LF (universal_newlines rest)
        | EmptyString => String LF EmptyString
        end
      else String c (universal_newlines rest)
  end.

End Codec.

(** ** Effects: exceptions, the file system, standard output *)

Inductive exn : Type :=
| ValueError
| FileNotFoundError
| NotADirectoryError
| IsADirectoryError
| PermissionError.

Inductive result (A : Type) : Type :=
| Ok (a : A)
| Raise (e : exn).
Arguments Ok {A} a.
Arguments Raise {A} e.

(** What a run can observe and change: the file system, and the texts
    written to standard output, one per call of [print]. *)
Record world : Type := mkWorld {
  fs : node;
  stdout : list string
}.

Definition M (A : Type) : Type := world -> result A * world.

Definition ret {A} (a : A) : M A := fun w => (Ok a, w).

Definition raise {A} (e : exn) : M A := fun w => (Raise e, w).

Definition bind {A B} (m : M A) (k : A -> M B) : M B :=
  fun w =>
    match m w with
    | (Ok a, w') => k a w'
    | (Raise e, w') => (Raise e, w')
    end.

Definition lift {A} (r : result A) : M A := fun w => (r, w).

Declare Scope monad_scope.
Delimit Scope monad_scope with monad.
Notation "x <- m ;; k" := (bind m (fun x => k))
  (at level 61, m at next level, right associativity) : monad_scope.
Notation "' pat <- m ;; k" := (bind m (fun x => match x with pat => k end))
  (at level 61, pat pattern, m at next level, right associativity) : monad_scope.
Notation "m ;; k" := (bind m (fun _ => k))
  (at level 61, right associativity) : monad_scope.
Local Open Scope monad_scope.

(** [for x in xs: body], the variables the body assigns being the state
    [s]. *)
Fixpoint for_ {A S} (xs : list A) (body : A -> S -> M S) (s : S) : M S :=
  match xs with
  | [] => ret s
  | x :: rest => s' <- body x s ;; for_ rest body s'
  end.

(** [print(text)]. *)
Definition print (text : string) : M unit :=
  fun w => (Ok tt, mkWorld (fs w) (stdout w ++ [text])%list).

(** The [OSError] of a path that leads nowhere: [NotADirectoryError] when
    it runs through a regular file, [FileNotFoundError] when an entry is
    missing. *)
Definition missing_error (root : node) (p : Path) : exn :=
  if FS.blocked root (parts p) then NotADirectoryError else FileNotFoundError.

(** The text of a file as [read_text(errors="ignore")] returns it, or the
    [OSError] that opening it raises. *)
Definition text_of (root : node) (p : Path) : result string :=
  match FS.lookup root (parts p) with
  | None => Raise (missing_error root p)
  | Some (Dir _) => Raise IsADirectoryError
  | Some (File false _) => Raise PermissionError
  | Some (File true data) => Ok (Codec.universal_newlines (Codec.decode_ignore data))
  end.

(** [p.read_text(errors="ignore")]. *)
Definition read_text (p : Path) : M string :=
  fun w => (text_of (fs w) p, w).

(** [p.stat().st_size]: the number of bytes of a file.  (The size a
    directory reports depends on the file system; the program asks for the
    size of files only.) *)
Definition st_size (p : Path) : M nat :=
  fun w =>
    match FS.lookup (fs w) (parts p) with
    | None => (Raise (missing_error (fs w) p), w)
    | Some (File _ data) => (Ok (String.length data), w)
    | Some (Dir _) => (Ok 4096, w)
    end.

(** [os.walk(top)]; a [top] that is missing or is no directory is walked as
    nothing, the error of listing it being ignored. *)
Definition os_walk (top : Path) : M (list (Path * list string * list string)) :=
  fun w =>
    (Ok match FS.lookup (fs w) (parts top) with
        | Some n => FS.os_walk top n
        | None => []
        end, w).

(** [root.glob("*" + ext)]. *)
Definition glob_star (root : Path) (ext : string) : M (list Path) :=
  fun w =>
    (Ok match FS.lookup (fs w) (parts root) with
        | Some n => FS.glob_star root n ext
        | None => []
        end, w).

(** [root.glob(sub + "/**/*" + ext)]: [sub] has to be a directory of
    [root]. *)
Definition glob_below (root : Path) (sub ext : string) : M (list Path) :=
  fun w =>
    (Ok match FS.lookup (fs w) (parts (PathLib.child root sub)) with
        | Some n => FS.glob_rec (PathLib.child root sub) n ext
        | None => []
        end, w).

(** [p.relative_to(other)]. *)
Definition relative_to (p other : Path) : result Path :=
  if Bool.eqb (absolute p) (absolute other) then
    match PathLib.strip_prefix (parts other) (parts p) with
    | Some rest => Ok (mkPath false rest)
    | None => Raise ValueError
    end
  else Raise ValueError.

(** [sorted(paths)]: a stable sort by [<]. *)
Fixpoint insert (p : Path) (sorted_ : list Path) : list Path :=
  match sorted_ with
  | [] => [p]
  | q :: rest => if PathLib.ltb p q then p :: q :: rest else q :: insert p rest
  end.

Definition sorted (paths : list Path) : list Path :=
  fold_left (fun acc p => insert p acc) paths [].

(** ** Formatting *)

Definition nl : string := String Codec.LF EmptyString.

(** [str(n)]. *)
Definition str_of_nat (n : nat) : string :=
  NilEmpty.string_of_uint (Nat.to_uint n).

(** A comma before every group of three digits, counted from the right. *)
Fixpoint group3 (digits : string) : string :=
  match digits with
  | EmptyString => EmptyString
  | String c rest =>
      String c
        (if ((0 <? String.length rest) && (String.length rest mod 3 =? 0))%nat
         then String "," (group3 rest)
         else group3 rest)
  end.

(** [f"{n:,}"]. *)
Definition format_commas (n : nat) : string := group3 (str_of_nat n).

(** ** The program *)

(** The three lists of [check_asset_usage]'s dictionary, under the keys
    ["md"], ["liquid"] and ["scss"]. *)
Record references : Type := mkReferences {
  md : list string;
  liquid : list string;
  scss : list string
}.

Definition append_md (r : references) (x : string) : references :=
  mkReferences (md r ++ [x])%list (liquid r) (scss r).

Definition append_liquid (r : references) (x : string) : references :=
  mkReferences (md r) (liquid r ++ [x])%list (scss r).

Definition append_scss (r : references) (x : string) : references :=
  mkReferences (md r) (liquid r) (scss r ++ [x])%list.

(** A list in a condition is true when it is not empty. *)
Definition truthy {A} (xs : list A) : bool :=
  match xs with [] => false | _ :: _ => true end.

Definition find_all_assets (assets_dir : Path) : M (list Path) :=
  walked <- os_walk assets_dir ;;
  ret (flat_map (fun '(root, _, files) =>
                   map (fun file => PathLib.child root file) files) walked).

Definition find_all_md_files (root_dir : Path) : M (list Path) :=
  found <- glob_star root_dir ".md" ;;
  ret (fold_left (fun md_files file => (md_files ++ [file])%list) found []).

Definition find_all_liquid_files (root_dir : Path) : M (list Path) :=
  for_ ["_includes"; "_layouts"]
       (fun sub liquid_files =>
          found <- glob_below root_dir sub ".liquid" ;;
          ret (liquid_files ++ found)%list)
       [].

Definition find_all_scss_files (root_dir : Path) : M (list Path) :=
  glob_below root_dir "_sass" ".scss".

Definition image_suffixes : list string :=
  [".png"; ".jpg"; ".jpeg"; ".gif"; ".svg"; ".webp"].

(** The patterns searched for an asset (the first part of
    [check_asset_usage]). *)
Definition build_patterns (asset assets_dir : Path) : result (list string) :=
  match relative_to asset (PathLib.parent assets_dir) with
  | Raise e => Raise e
  | Ok relative_path =>
      let filename := PathLib.name asset in
      let stem := PathLib.stem asset in
      let patterns :=
        [PathLib.str relative_path; "/" ++ PathLib.str relative_path; filename] in
      Ok (if Str.mem (Str.lower (PathLib.suffix asset)) image_suffixes
          then (patterns ++ [stem])%list
          else patterns)
  end.

(** [for pattern in patterns: if pattern in content: <record>; break]. *)
Fixpoint scan (patterns : list string) (content : string)
    (record : M references) (refs : references) : M references :=
  match patterns with
  | [] => ret refs
  | pattern :: rest =>
      if Str.str_in pattern content then record
      else scan rest content record refs
  end.

Definition check_asset_usage (asset : Path)
    (md_files liquid_files scss_files : list Path) (assets_dir : Path)
    : M references :=
  patterns <- lift (build_patterns asset assets_dir) ;;
  let refs := mkReferences [] [] [] in
  refs <- for_ md_files
    (fun md_file refs =>
       content <- read_text md_file ;;
       scan patterns content
            (ret (append_md refs (PathLib.name md_file))) refs) refs ;;
  refs <- for_ liquid_files
    (fun liquid_file refs =>
       content <- read_text liquid_file ;;
       scan patterns content
            (rel <- lift (relative_to liquid_file
                            (PathLib.parent (PathLib.parent liquid_file))) ;;
             ret (append_liquid refs (PathLib.str rel))) refs) refs ;;
  refs <- for_ scss_files
    (fun scss_file refs =>
       content <- read_text scss_file ;;
       scan patterns content
            (rel <- lift (relative_to scss_file
                            (PathLib.parent (PathLib.parent scss_file))) ;;
             ret (append_scss refs (PathLib.str rel))) refs) refs ;;
  ret refs.

(** [any(refs.values())]. *)
Definition has_refs (refs : references) : bool :=
  existsb truthy [md refs; liquid refs; scss refs].

(** The loop of [main] that sorts the assets into [used_assets] and
    [unused_assets]. *)
Definition classify (assets md_files liquid_files scss_files : list Path)
    (assets_dir : Path) : M (list (Path * references) * list Path) :=
  for_ (sorted assets)
    (fun asset '(used_assets, unused_assets) =>
       refs <- check_asset_usage asset md_files liquid_files scss_files assets_dir ;;
       if has_refs refs
       then ret ((used_assets ++ [(asset, refs)])%list, unused_assets)
       else ret (used_assets, (unused_assets ++ [asset])%list))
    ([], []).

(** The section of the report on the used assets. *)
Definition report_used (used_assets : list (Path * references))
    (assets_dir : Path) : M unit :=
  print (Str.repeat "=" 60) ;;
  print "USED ASSETS" ;;
  print (Str.repeat "=" 60) ;;
  for_ used_assets
    (fun '(asset, refs) _ =>
       rel_path <- lift (relative_to asset assets_dir) ;;
       let ref_summary : list string := [] in
       let ref_summary :=
         if truthy (md refs)
         then (ref_summary ++ [("md: " ++ Str.join ", " (firstn 3 (md refs)))%string])%list
         else ref_summary in
       let ref_summary :=
         if truthy (liquid refs)
         then (ref_summary ++ [("liquid: " ++ Str.join ", " (firstn 3 (liquid refs)))%string])%list
         else ref_summary in
       let ref_summary :=
         if truthy (scss refs)
         then (ref_summary ++ [("scss: " ++ Str.join ", " (firstn 3 (scss refs)))%string])%list
         else ref_summary in
       print ("  " ++ PathLib.str rel_path) ;;
       print ("    -> " ++ Str.join "; " ref_summary))
    tt.

(** The section of the report on the unused assets; the total of their
    sizes is returned after it has been printed. *)
Definition report_unused (unused_assets : list Path) (assets_dir : Path)
    : M nat :=
  print (nl ++ Str.repeat "=" 60) ;;
  print "UNUSED ASSETS (not referenced anywhere)" ;;
  print (Str.repeat "=" 60) ;;
  total_size <- for_ unused_assets
    (fun asset total_size =>
       rel_path <- lift (relative_to asset assets_dir) ;;
       size <- st_size asset ;;
       let total_size := total_size + size in
       print ("  " ++ PathLib.str rel_path ++ " (" ++ format_commas size ++ " bytes)") ;;
       ret total_size)
    0 ;;
  print (nl ++ "Total unused: " ++ str_of_nat (length unused_assets)
            ++ " files, " ++ format_commas total_size ++ " bytes") ;;
  ret total_size.

(** [main()], [file__] being the path of the script. *)
Definition main (file__ : Path) : M unit :=
  let root_dir := PathLib.parent file__ in
  let assets_dir := PathLib.child root_dir "assets" in
  print ("Scanning for assets and references..." ++ nl) ;;
  assets <- find_all_assets assets_dir ;;
  md_files <- find_all_md_files root_dir ;;
  liquid_files <- find_all_liquid_files root_dir ;;
  scss_files <- find_all_scss_files root_dir ;;
  print ("Found " ++ str_of_nat (length assets) ++ " assets") ;;
  print ("Found " ++ str_of_nat (length md_files) ++ " markdown files") ;;
  print ("Found " ++ str_of_nat (length liquid_files) ++ " liquid templates") ;;
  print ("Found " ++ str_of_nat (length scss_files) ++ " scss files" ++ nl) ;;
  '(used_assets, unused_assets) <-
     classify assets md_files liquid_files scss_files assets_dir ;;
  report_used used_assets assets_dir ;;
  report_unused unused_assets assets_dir ;;
  print ("Total used: " ++ str_of_nat (length used_assets) ++ " files").

(** ** The vocabulary of the properties *)

(** A source file is readable when opening it raises nothing; decoding its
    bytes never raises. *)
Definition readable (root : node) (f : Path) : Prop :=
  exists content, text_of root f = Ok content.

Definition readableb (root : node) (f : Path) : bool :=
  match text_of root f with
  | Ok _ => true
  | Raise _ => false
  end.

(** Every file of the list is readable. *)
Definition all_readable (root : node) (files : list Path) : bool :=
  forallb (readableb root) files.

(** The text of a readable file. *)
Definition content (root : node) (f : Path) : string :=
  match text_of root f with
  | Ok c => c
  | Raise _ => ""
  end.

(** Some pattern occurs in the text. *)
Definition contains_any (patterns : list string) (text : string) : bool :=
  existsb (fun pattern => Str.str_in pattern text) patterns.

(** The file contains some pattern. *)
Definition hit (patterns : list string) (root : node) (f : Path) : bool :=
  contains_any patterns (content root f).

(** What the loops of [check_asset_usage] record for a file of the template
    and stylesheet categories. *)
Definition entry_of (f : Path) : string :=
  match relative_to f (PathLib.parent (PathLib.parent f)) with
  | Ok rel => PathLib.str rel
  | Raise _ => ""
  end.

(** The references of an asset with the given patterns, over readable
    source files: per category, the files that contain a pattern, in the
    order of the category. *)
Definition refs_of (patterns : list string) (root : node)
    (md_files liquid_files scss_files : list Path) : references :=
  mkReferences
    (map PathLib.name (filter (hit patterns root) md_files))
    (map entry_of (filter (hit patterns root) liquid_files))
    (map entry_of (filter (hit patterns root) scss_files)).

(** The patterns of an asset, when they can be built. *)
Definition patterns_of (assets_dir asset : Path) : list string :=
  match build_patterns asset assets_dir with
  | Ok patterns => patterns
  | Raise _ => []
  end.

(** An asset lies below the directory the patterns are relative to. *)
Definition has_patterns (assets_dir asset : Path) : Prop :=
  exists patterns, build_patterns asset assets_dir = Ok patterns.

(** The references [check_asset_usage] finds for an asset. *)
Definition asset_refs (assets_dir : Path)
    (md_files liquid_files scss_files : list Path) (w : world) (asset : Path)
    : references :=
  refs_of (patterns_of assets_dir asset) (fs w) md_files liquid_files scss_files.

(** The asset has a reference. *)
Definition is_used (assets_dir : Path)
    (md_files liquid_files scss_files : list Path) (w : world) (asset : Path)
    : bool :=
  has_refs (asset_refs assets_dir md_files liquid_files scss_files w asset).

(** The assets below a directory node: the files of each directory the
    walk visits. *)
Definition assets_under (top : Path) (n : node) : list Path :=
  flat_map (fun '(root, _, files) =>
              map (fun file => PathLib.child root file) files)
           (FS.os_walk top n).

(** Induction on a tree, with the property available for every entry of a
    directory. *)
Fixpoint node_rect' (P : node -> Prop)
    (HFile : forall r d, P (File r d))
    (HDir : forall entries, Forall (fun e => P (snd e)) entries -> P (Dir entries))
    (n : node) : P n :=
  match n with
  | File r d => HFile r d
  | Dir entries =>
      HDir entries
        ((fix go (es : list (string * node)) : Forall (fun e => P (snd e)) es :=
            match es with
            | [] => Forall_nil _
            | e :: rest => Forall_cons e (node_rect' P HFile HDir (snd e)) (go rest)
            end) entries)
  end.

(** The asset has an image extension, however the extension is cased. *)
Definition is_image (asset : Path) : bool :=
  Str.mem (Str.lower (PathLib.suffix asset)) image_suffixes.

(** An asset lies strictly below the assets directory. *)
Definition below (assets_dir asset : Path) : Prop :=
  absolute asset = absolute assets_dir /\
  exists rest, rest <> [] /\ parts asset = (parts assets_dir ++ rest)%list.

(** The size of the file at a path. *)
Definition size_of (root : node) (a : Path) : nat :=
  match FS.lookup root (parts a) with
  | Some (File _ data) => String.length data
  | _ => 0
  end.

Definition is_file (root : node) (a : Path) : Prop :=
  exists r d, FS.lookup root (parts a) = Some (File r d).

(** The text of an asset's path relative to the assets directory. *)
Definition rel_str (assets_dir a : Path) : string :=
  match relative_to a assets_dir with
  | Ok rel => PathLib.str rel
  | Raise _ => ""
  end.

Definition bar : string := Str.repeat "=" 60.

(** The line of the report for an unused asset. *)
Definition unused_line (assets_dir : Path) (root : node) (a : Path) : string :=
  "  " ++ rel_str assets_dir a ++ " (" ++ format_commas (size_of root a) ++ " bytes)".

(** The line that closes the section on the unused assets. *)
Definition total_unused_line (count total_size : nat) : string :=
  nl ++ "Total unused: " ++ str_of_nat count ++ " files, "
     ++ format_commas total_size ++ " bytes".

(** The summary of the references of a used asset. *)
Definition ref_summary (refs : references) : list string :=
  ((if truthy (md refs)
    then [("md: " ++ Str.join ", " (firstn 3 (md refs)))%string] else []) ++
   (if truthy (liquid refs)
    then [("liquid: " ++ Str.join ", " (firstn 3 (liquid refs)))%string] else []) ++
   (if truthy (scss refs)
    then [("scss: " ++ Str.join ", " (firstn 3 (scss refs)))%string] else []))%list.

(** The two lines of the report for a used asset. *)
Definition used_lines (assets_dir : Path) (entry : Path * references) : list string :=
  ["  " ++ rel_str assets_dir (fst entry);
   "    -> " ++ Str.join "; " (ref_summary (snd entry))].

(** A computation that never changes the file system and only appends to
    standard output, its result and what it prints being functions of the
    file system alone. *)
Definition appends {A} (m : M A) : Prop :=
  forall root, exists (r : result A) (lines : list string),
    forall out, m (mkWorld root out) = (r, mkWorld root (out ++ lines)%list).

(** A computation that, besides, prints nothing. *)
Definition silent {A} (m : M A) : Prop :=
  forall root, exists r : result A,
    forall out, m (mkWorld root out) = (r, mkWorld root out).

(** What [main] prints before the totals. *)
Definition report_head (assets_dir : Path) (root : node)
    (assets md_files liquid_files scss_files : list Path)
    (used_assets : list (Path * references)) (unused_assets : list Path)
    : list string :=
  ([("Scanning for assets and references..." ++ nl)%string;
    ("Found " ++ str_of_nat (length assets) ++ " assets")%string;
    ("Found " ++ str_of_nat (length md_files) ++ " markdown files")%string;
    ("Found " ++ str_of_nat (length liquid_files) ++ " liquid templates")%string;
    ("Found " ++ str_of_nat (length scss_files) ++ " scss files" ++ nl)%string]
   ++ [bar; "USED ASSETS"; bar]
   ++ flat_map (used_lines assets_dir) used_assets
   ++ [(nl ++ bar)%string; "UNUSED ASSETS (not referenced anywhere)"; bar]
   ++ map (unused_line assets_dir root) unused_assets)%list.

(** Everything [main] prints. *)
Definition report_text (assets_dir : Path) (root : node)
    (assets md_files liquid_files scss_files : list Path)
    (used_assets : list (Path * references)) (unused_assets : list Path)
    : list string :=
  (report_head assets_dir root assets md_files liquid_files scss_files
               used_assets unused_assets
   ++ [total_unused_line (length unused_assets)
         (list_sum (map (size_of root) unused_assets));
       ("Total used: " ++ str_of_nat (length used_assets) ++ " files")%string])%list.

(** Nothing is at the path. *)
Definition absent (root : node) (p : Path) : Prop :=
  FS.lookup root (parts p) = None.

(** The matches of [sub/**/*ext] from a directory. *)
Definition globbed (root : node) (dir : Path) (sub ext : string) : list Path :=
  match FS.lookup root (parts (PathLib.child dir sub)) with
  | Some n => FS.glob_rec (PathLib.child dir sub) n ext
  | None => []
  end.



(** [a] is not after [b] in the order of paths: [b < a] is false. *)
Definition path_le (a b : Path) : Prop := PathLib.ltb b a = false.

(** ** Testing the name alone *)

(** The checker as the shorter description has it: one pattern, the stem of
    an asset with an image extension and the file name of any other, is
    searched in each source file; the path patterns are left out. *)
Module ByName.

Definition pattern (asset : Path) : string :=
  if is_image asset then PathLib.stem asset else PathLib.name asset.

Definition check_asset_usage (asset : Path)
    (md_files liquid_files scss_files : list Path) : M references :=
  let refs := mkReferences [] [] [] in
  refs <- for_ md_files
    (fun md_file refs =>
       content <- read_text md_file ;;
       if Str.str_in (pattern asset) content
       then ret (append_md refs (PathLib.name md_file))
       else ret refs) refs ;;
  refs <- for_ liquid_files
    (fun liquid_file refs =>
       content <- read_text liquid_file ;;
       if Str.str_in (pattern asset) content
       then (rel <- lift (relative_to liquid_file
                            (PathLib.parent (PathLib.parent liquid_file))) ;;
             ret (append_liquid refs (PathLib.str rel)))
       else ret refs) refs ;;
  refs <- for_ scss_files
    (fun scss_file refs =>
       content <- read_text scss_file ;;
       if Str.str_in (pattern asset) content
       then (rel <- lift (relative_to scss_file
                            (PathLib.parent (PathLib.parent scss_file))) ;;
             ret (append_scss refs (PathLib.str rel)))
       else ret refs) refs ;;
  ret refs.

Definition classify (assets md_files liquid_files scss_files : list Path)
    : M (list (Path * references) * list Path) :=
  for_ (sorted assets)
    (fun asset '(used_assets, unused_assets) =>
       refs <- check_asset_usage asset md_files liquid_files scss_files ;;
       if has_refs refs
       then ret ((used_assets ++ [(asset, refs)])%list, unused_assets)
       else ret (used_assets, (unused_assets ++ [asset])%list))
    ([], []).

End ByName.

(** ** A sample project *)

Module Sample.

Definition script : Path := mkPath true ["site"; "check_assets.py"].

Definition project : node :=
  Dir [("site", Dir [
    ("check_assets.py", File true "import os");
    ("index.md", File true "![Logo](assets/img/logo.png)");
    ("about.md", File true "nothing here");
    ("assets", Dir [
       ("img", Dir [("logo.png", File true "PNG1234");
                    ("logo-2x.png", File true "0123456789");
                    ("hero.jpg", File true "JPEG")]);
       ("fonts.css", File true "body{}")]);
    ("_includes", Dir [("head.liquid", File true "<link href=fonts.css>");
                       ("nav", Dir [("bar.liquid", File true "<nav>")])]);
    ("_sass", Dir [("main.scss", File true "background: url(hero.jpg)")])])].

Definition w0 : world := mkWorld project [].

Definition root_dir : Path := PathLib.parent script.
Definition assets_dir : Path := PathLib.child root_dir "assets".

Definition found {A} (r : result (list A) * world) : list A :=
  match fst r with
  | Ok xs => xs
  | Raise _ => []
  end.

Definition assets : list Path :=
  Eval vm_compute in found (find_all_assets assets_dir w0).
Definition md_files : list Path :=
  Eval vm_compute in found (find_all_md_files root_dir w0).
Definition liquid_files : list Path :=
  Eval vm_compute in found (find_all_liquid_files root_dir w0).
Definition scss_files : list Path :=
  Eval vm_compute in found (find_all_scss_files root_dir w0).

Definition logo : Path :=
  mkPath true ["site"; "assets"; "img"; "logo.png"].
Definition logo_2x : Path :=
  mkPath true ["site"; "assets"; "img"; "logo-2x.png"].
Definition hero : Path :=
  mkPath true ["site"; "assets"; "img"; "hero.jpg"].
Definition index_md : Path := mkPath true ["site"; "index.md"].
Definition main_scss : Path := mkPath true ["site"; "_sass"; "main.scss"].

End Sample.

(** A project with the script and nothing else. *)
Module Bare.

Definition project : node :=
  Dir [("site", Dir [("check_assets.py", File true "import os")])].

Definition w0 : world := mkWorld project [].

End Bare.

(** A project whose first markdown file may not be read, and with a
    directory that the pattern for markdown files matches. *)
Module Locked.

Definition script : Path := mkPath true ["site"; "check_assets.py"].

Definition project : node :=
  Dir [("site", Dir [
    ("check_assets.py", File true "import os");
    ("index.md", File false "![Logo](assets/img/logo.png)");
    ("about.md", File true "see logo.png");
    ("assets", Dir [("img", Dir [("logo.png", File true "PNG1234")])])])].

Definition w0 : world := mkWorld project [].

Definition assets_dir : Path := mkPath true ["site"; "assets"].
Definition logo : Path := mkPath true ["site"; "assets"; "img"; "logo.png"].
Definition index_md : Path := mkPath true ["site"; "index.md"].


End Locked.

(** A project whose markdown file names the asset in another case. *)
Module Cased.

Definition project : node :=
  Dir [("site", Dir [
    ("check_assets.py", File true "import os");
    ("index.md", File true "![Logo](assets/img/LOGO.PNG)");
    ("assets", Dir [("img", Dir [("logo.png", File true "PNG1234")])])])].

Definition w0 : world := mkWorld project [].

End Cased.

(** A project whose assets directory is empty and whose markdown file may
    not be read. *)
Module Idle.

Definition project : node :=
  Dir [("site", Dir [
    ("check_assets.py", File true "import os");
    ("index.md", File false "![Logo](assets/img/logo.png)");
    ("assets", Dir [("img", Dir [])])])].

Definition w0 : world := mkWorld project [].

End Idle.

(** A project whose assets have suffixes in mixed and upper case. *)
Module Mixed.

Definition project : node :=
  Dir [("site", Dir [
    ("check_assets.py", File true "import os");
    ("index.md", File true "see Photo and SCAN.PNG");
    ("assets", Dir [("Photo.JPeG", File true "JFIF");
                    ("SCAN.PNG", File true "PNG");
                    ("notes.TXT", File true "text")])])].

Definition w0 : world := mkWorld project [].

Definition assets_dir : Path := mkPath true ["site"; "assets"].
Definition photo : Path := mkPath true ["site"; "assets"; "Photo.JPeG"].
Definition assets : list Path :=
  [photo; mkPath true ["site"; "assets"; "SCAN.PNG"];
   mkPath true ["site"; "assets"; "notes.TXT"]].

End Mixed.

(** A project with an asset whose name is part of the name of another. *)
Module Nested.

Definition project : node :=
  Dir [("site", Dir [
    ("check_assets.py", File true "import os");
    ("index.md", File true "![big](assets/big-logo.png)");
    ("assets", Dir [("logo.png", File true "small");
                    ("big-logo.png", File true "larger")])])].

Definition w0 : world := mkWorld project [].

Definition assets_dir : Path := mkPath true ["site"; "assets"].
Definition logo : Path := mkPath true ["site"; "assets"; "logo.png"].
Definition big_logo : Path := mkPath true ["site"; "assets"; "big-logo.png"].
Definition index_md : Path := mkPath true ["site"; "index.md"].

End Nested.

(** A project whose markdown file holds bytes that are not UTF-8 (FF, and
    a lead byte E4 cut short) around the name of an asset. *)
Module Garbled.

Definition text : string :=
  String (ascii_of_nat 255)
    ("see logo.png" ++ String (ascii_of_nat 228) (String (ascii_of_nat 189) "")).

Definition project : node :=
  Dir [("site", Dir [
    ("check_assets.py", File true "import os");
    ("index.md", File true text);
    ("assets", Dir [("logo.png", File true "PNG1234")])])].

Definition w0 : world := mkWorld project [].

Definition assets_dir : Path := mkPath true ["site"; "assets"].
Definition logo : Path := mkPath true ["site"; "assets"; "logo.png"].
Definition index_md : Path := mkPath true ["site"; "index.md"].

End Garbled.

(** * Properties *)

(** ** Substrings *)

Section Substrings.

Lemma prefix_iff (p s : string) :
  String.prefix p s = true <-> exists b, s = p ++ b.
Proof.
  revert s; induction p as [|c p IH]; intros s; simpl.
  - destruct s; split; eauto.
  - destruct s as [|d s]; simpl.
    + split; [discriminate | intros [b Hb]; discriminate].
    + destruct (ascii_dec c d) as [->|Hne].
      * rewrite IH. split; intros [b Hb]; exists b; congruence.
      * split; [discriminate | intros [b Hb]; congruence].
Qed.

Lemma str_in_nil (p : string) :
  Str.str_in p "" = String.prefix p "" || false.
Proof. reflexivity. Qed.

Lemma str_in_cons (p : string) (c : ascii) (s : string) :
  Str.str_in p (String c s) = String.prefix p (String c s) || Str.str_in p s.
Proof. reflexivity. Qed.

Lemma str_in_iff (p s : string) :
  Str.str_in p s = true <-> exists a b, s = a ++ p ++ b.
Proof.
  induction s as [|c s IH]; [rewrite str_in_nil | rewrite str_in_cons].
  - rewrite orb_false_r, prefix_iff. split.
    + intros [b Hb]. exists "", b. exact Hb.
    + intros [a [b Hab]]. destruct a; [eauto | discriminate].
  - rewrite orb_true_iff, prefix_iff, IH. split.
    + intros [[b Hb] | [a [b Hab]]].
      * exists "", b. exact Hb.
      * exists (String c a), b. simpl. now rewrite Hab.
    + intros [a [b Hab]]. destruct a as [|d a]; simpl in Hab.
      * left; eauto.
      * right. exists a, b. congruence.
Qed.

Lemma append_assoc (a b c : string) : (a ++ b) ++ c = a ++ b ++ c.
Proof. induction a; simpl; congruence. Qed.

Lemma append_empty_r (a : string) : a ++ "" = a.
Proof. induction a; simpl; congruence. Qed.

Lemma str_in_refl (s : string) : Str.str_in s s = true.
Proof. apply str_in_iff. exists "", "". simpl. now rewrite append_empty_r. Qed.

(** Containment is transitive: what contains a string contains its
    substrings. *)
Lemma str_in_trans (a b c : string) :
  Str.str_in a b = true -> Str.str_in b c = true -> Str.str_in a c = true.
Proof.
  rewrite !str_in_iff. intros [x [y ->]] [u [v ->]].
  exists (u ++ x), (y ++ v). now rewrite !append_assoc.
Qed.

Lemma str_in_append_l (p a b : string) :
  Str.str_in p b = true -> Str.str_in p (a ++ b) = true.
Proof.
  rewrite !str_in_iff. intros [x [y ->]]. exists (a ++ x), y.
  now rewrite !append_assoc.
Qed.

Lemma str_in_append_r (p a b : string) :
  Str.str_in p a = true -> Str.str_in p (a ++ b) = true.
Proof.
  rewrite !str_in_iff. intros [x [y ->]]. exists x, (y ++ b).
  now rewrite !append_assoc.
Qed.

(** When the longer string is not found, neither is one that contains it. *)
Lemma str_in_false_mono (a b c : string) :
  Str.str_in a b = true -> Str.str_in a c = false -> Str.str_in b c = false.
Proof.
  intros Hab Hac. destruct (Str.str_in b c) eqn:Hbc; [|reflexivity].
  now rewrite (str_in_trans _ _ _ Hab Hbc) in Hac.
Qed.

Lemma take_drop (i : nat) (s : string) : Str.take i s ++ Str.drop i s = s.
Proof.
  revert s; induction i as [|i IH]; intros [|c s]; simpl; try reflexivity.
  now rewrite IH.
Qed.

Lemma str_in_take (i : nat) (s : string) : Str.str_in (Str.take i s) s = true.
Proof.
  apply str_in_iff. exists "", (Str.drop i s). simpl. now rewrite take_drop.
Qed.

Lemma str_in_join_last (sep : string) (xs : list string) :
  xs <> [] -> Str.str_in (last xs "") (Str.join sep xs) = true.
Proof.
  induction xs as [|x xs IH]; [congruence|]. intros _.
  destruct xs as [|y xs].
  - simpl. apply str_in_refl.
  - change (last (x :: y :: xs) "") with (last (y :: xs) "").
    change (Str.join sep (x :: y :: xs))
      with (x ++ sep ++ Str.join sep (y :: xs)).
    do 2 apply str_in_append_l. apply IH. discriminate.
Qed.

End Substrings.

(** ** Paths *)

Section Paths.

Lemma strip_prefix_iff (pre xs rest : list string) :
  PathLib.strip_prefix pre xs = Some rest <-> xs = (pre ++ rest)%list.
Proof.
  revert xs; induction pre as [|a pre IH]; intros xs; simpl.
  - split; congruence.
  - destruct xs as [|b xs]; [split; discriminate|].
    destruct (String.eqb_spec a b) as [->|Hne].
    + rewrite IH. split; congruence.
    + split; [discriminate | congruence].
Qed.

Lemma relative_to_iff (p other rel : Path) :
  relative_to p other = Ok rel <->
  absolute p = absolute other /\ absolute rel = false /\
  parts p = (parts other ++ parts rel)%list.
Proof.
  unfold relative_to. destruct rel as [ra rp]; simpl.
  destruct (Bool.eqb (absolute p) (absolute other)) eqn:Habs.
  - apply eqb_prop in Habs.
    destruct (PathLib.strip_prefix (parts other) (parts p)) as [rest|] eqn:Hs.
    + apply strip_prefix_iff in Hs. split.
      * intros [= <- <-]. auto.
      * intros (_ & -> & Hp). rewrite Hs in Hp.
        apply app_inv_head in Hp. now subst.
    + split; [discriminate|]. intros (_ & _ & Hp).
      apply strip_prefix_iff in Hp. congruence.
  - split; [discriminate|]. intros (Ha & _). rewrite Ha in Habs.
    now rewrite eqb_reflx in Habs.
Qed.

Lemma removelast_prefix (xs : list string) :
  exists rest, xs = (removelast xs ++ rest)%list.
Proof.
  destruct xs as [|x xs]; [now exists [] |].
  exists [last (x :: xs) ""]. apply app_removelast_last. discriminate.
Qed.

(** A path is relative to the parent of its parent, whatever the path. *)
Lemma relative_to_grandparent (p : Path) :
  exists rel, relative_to p (PathLib.parent (PathLib.parent p)) = Ok rel.
Proof.
  destruct (removelast_prefix (parts p)) as [r1 H1].
  destruct (removelast_prefix (removelast (parts p))) as [r2 H2].
  exists (mkPath false (r2 ++ r1)). apply relative_to_iff. simpl.
  repeat split. rewrite app_assoc, <- H2. exact H1.
Qed.

Lemma last_app_nonempty (xs ys : list string) (d : string) :
  ys <> [] -> last (xs ++ ys) d = last ys d.
Proof.
  intros Hy. induction xs as [|x xs IH]; [reflexivity|].
  simpl. destruct (xs ++ ys)%list eqn:E; [|exact IH].
  apply app_eq_nil in E. tauto.
Qed.

(** The name of a path occurs in the text of the path relative to any of
    its proper ancestors. *)
Lemma name_in_relative (p other rel : Path) :
  relative_to p other = Ok rel -> parts rel <> [] ->
  PathLib.name p = PathLib.name rel /\
  Str.str_in (PathLib.name p) (PathLib.str rel) = true.
Proof.
  intros Hrel Hne. apply relative_to_iff in Hrel as (_ & Hr & Hp).
  assert (Hname : PathLib.name p = PathLib.name rel).
  { unfold PathLib.name. rewrite Hp. now apply last_app_nonempty. }
  split; [exact Hname|]. rewrite Hname.
  unfold PathLib.str, PathLib.name. rewrite Hr.
  destruct (parts rel) eqn:E; [congruence|].
  apply str_in_join_last. discriminate.
Qed.

Lemma stem_in_name (p : Path) :
  Str.str_in (PathLib.stem p) (PathLib.name p) = true.
Proof.
  unfold PathLib.stem.
  destruct (Str.rfind_dot (PathLib.name p)) as [i|]; [|apply str_in_refl].
  destruct ((0 <? i) && (i <? String.length (PathLib.name p) - 1))%nat.
  - apply str_in_take.
  - apply str_in_refl.
Qed.


End Paths.

(** ** Running the monad *)

Section Running.

Lemma bind_ok {A B} (m : M A) (k : A -> M B) (w w' : world) (a : A) :
  m w = (Ok a, w') -> bind m k w = k a w'.
Proof. intros H. unfold bind. now rewrite H. Qed.

Lemma bind_raise {A B} (m : M A) (k : A -> M B) (w w' : world) (e : exn) :
  m w = (Raise e, w') -> bind m k w = (Raise e, w').
Proof. intros H. unfold bind. now rewrite H. Qed.

Lemma all_readable_Forall (root : node) (files : list Path) :
  all_readable root files = true -> Forall (readable root) files.
Proof.
  unfold all_readable. rewrite forallb_forall, Forall_forall.
  intros H f Hf. specialize (H f Hf). unfold readableb, readable in *.
  destruct (text_of root f) as [c|e]; [now exists c | discriminate].
Qed.

Lemma read_text_readable (root : node) (f : Path) :
  readable root f -> text_of root f = Ok (content root f).
Proof. intros [c Hc]. unfold content. now rewrite Hc. Qed.

(** The inner loop records the file when some pattern occurs in it, and
    then only once: it stops at the first pattern found. *)
Lemma scan_eq (patterns : list string) (text : string)
    (record : M references) (refs : references) :
  scan patterns text record refs =
  if contains_any patterns text then record else ret refs.
Proof.
  induction patterns as [|p ps IH]; simpl; [reflexivity|].
  destruct (Str.str_in p text); simpl; [reflexivity | exact IH].
Qed.

Variable patterns : list string.
Variable record : Path -> references -> M references.
Variable update : references -> Path -> references.
Hypothesis record_ok :
  forall f refs w, record f refs w = (Ok (update refs f), w).

Let body (f : Path) (refs : references) : M references :=
  text <- read_text f ;; scan patterns text (record f refs) refs.

(** A loop over readable files records those that contain a pattern, in
    their order. *)
Lemma for_scan_ok (files : list Path) (refs : references) (w : world) :
  Forall (readable (fs w)) files ->
  for_ files body refs w =
  (Ok (fold_left update (filter (hit patterns (fs w)) files) refs), w).
Proof.
  revert refs. induction files as [|f files IH]; intros refs Hall.
  - reflexivity.
  - inversion Hall as [|? ? Hf Hrest]; subst. simpl.
    assert (Hbody : body f refs w =
      (Ok (if hit patterns (fs w) f then update refs f else refs), w)).
    { unfold body.
      rewrite (bind_ok _ _ w w (content (fs w) f))
        by (unfold read_text; now rewrite read_text_readable).
      rewrite scan_eq. fold (hit patterns (fs w) f).
      destruct (hit patterns (fs w) f); [apply record_ok | reflexivity]. }
    rewrite (bind_ok _ _ _ _ _ Hbody), IH by assumption.
    destruct (hit patterns (fs w) f); reflexivity.
Qed.


End Running.

(** ** The reference checker *)

Section Checker.

Lemma fold_append_md (files : list Path) (refs : references) :
  fold_left (fun r f => append_md r (PathLib.name f)) files refs =
  mkReferences (md refs ++ map PathLib.name files)%list (liquid refs) (scss refs).
Proof.
  revert refs; induction files as [|f files IH]; intros refs; simpl.
  - rewrite app_nil_r. now destruct refs.
  - rewrite IH. simpl. now rewrite <- app_assoc.
Qed.

Lemma fold_append_liquid (files : list Path) (refs : references) :
  fold_left (fun r f => append_liquid r (entry_of f)) files refs =
  mkReferences (md refs) (liquid refs ++ map entry_of files)%list (scss refs).
Proof.
  revert refs; induction files as [|f files IH]; intros refs; simpl.
  - rewrite app_nil_r. now destruct refs.
  - rewrite IH. simpl. now rewrite <- app_assoc.
Qed.

Lemma fold_append_scss (files : list Path) (refs : references) :
  fold_left (fun r f => append_scss r (entry_of f)) files refs =
  mkReferences (md refs) (liquid refs) (scss refs ++ map entry_of files)%list.
Proof.
  revert refs; induction files as [|f files IH]; intros refs; simpl.
  - rewrite app_nil_r. now destruct refs.
  - rewrite IH. simpl. now rewrite <- app_assoc.
Qed.

Lemma record_relative (add : references -> string -> references)
    (f : Path) (refs : references) (w : world) :
  (rel <- lift (relative_to f (PathLib.parent (PathLib.parent f))) ;;
   ret (add refs (PathLib.str rel))) w = (Ok (add refs (entry_of f)), w).
Proof.
  unfold entry_of. destruct (relative_to_grandparent f) as [rel Hrel].
  rewrite Hrel. unfold bind, lift, ret. reflexivity.
Qed.

Variables (asset assets_dir : Path).
Variables (md_files liquid_files scss_files : list Path).

(** Over readable source files, the checker returns [refs_of] and leaves
    the world as it was. *)
Lemma check_asset_usage_ok (patterns : list string) (w : world) :
  build_patterns asset assets_dir = Ok patterns ->
  Forall (readable (fs w)) (md_files ++ liquid_files ++ scss_files)%list ->
  check_asset_usage asset md_files liquid_files scss_files assets_dir w =
  (Ok (refs_of patterns (fs w) md_files liquid_files scss_files), w).
Proof.
  intros Hp Hall.
  apply Forall_app in Hall as [Hmd Hall].
  apply Forall_app in Hall as [Hli Hsc].
  unfold check_asset_usage.
  rewrite (bind_ok _ _ w w patterns) by (unfold lift; now rewrite Hp).
  rewrite (bind_ok _ _ w w _
    (for_scan_ok patterns
       (fun f refs => ret (append_md refs (PathLib.name f)))
       (fun refs f => append_md refs (PathLib.name f))
       (fun _ _ _ => eq_refl) md_files _ w Hmd)).
  rewrite (bind_ok _ _ w w _
    (for_scan_ok patterns _
       (fun refs f => append_liquid refs (entry_of f))
       (record_relative append_liquid) liquid_files _ w Hli)).
  rewrite (bind_ok _ _ w w _
    (for_scan_ok patterns _
       (fun refs f => append_scss refs (entry_of f))
       (record_relative append_scss) scss_files _ w Hsc)).
  rewrite fold_append_scss, fold_append_liquid, fold_append_md.
  reflexivity.
Qed.

(** When the patterns cannot be built, nothing is read. *)
Lemma check_asset_usage_no_patterns (e : exn) (w : world) :
  build_patterns asset assets_dir = Raise e ->
  check_asset_usage asset md_files liquid_files scss_files assets_dir w =
  (Raise e, w).
Proof.
  intros Hp. unfold check_asset_usage. apply bind_raise.
  unfold lift. now rewrite Hp.
Qed.

End Checker.

(** ** Sorting *)

Section Sorting.

Lemma insert_perm (p : Path) (l : list Path) : Permutation (insert p l) (p :: l).
Proof.
  induction l as [|q l IH]; simpl; [reflexivity|].
  destruct (PathLib.ltb p q); [reflexivity|].
  rewrite IH. apply perm_swap.
Qed.

Lemma sorted_perm (l : list Path) : Permutation (sorted l) l.
Proof.
  unfold sorted.
  assert (H : forall acc, Permutation (fold_left (fun acc p => insert p acc) l acc)
                                      (acc ++ l)%list).
  { induction l as [|p l IH]; intros acc; simpl.
    - now rewrite app_nil_r.
    - rewrite IH, insert_perm. apply Permutation_middle. }
  apply (H []).
Qed.

Lemma sorted_in (l : list Path) (p : Path) : In p (sorted l) <-> In p l.
Proof.
  split; apply Permutation_in; [|symmetry]; apply sorted_perm.
Qed.

End Sorting.

(** ** The classification *)

Section Classification.

Variable assets_dir : Path.
Variables md_files liquid_files scss_files : list Path.
Variable w : world.

Local Abbreviation refs_for :=
  (asset_refs assets_dir md_files liquid_files scss_files w).
Local Abbreviation used :=
  (is_used assets_dir md_files liquid_files scss_files w).

Hypothesis sources_readable :
  Forall (readable (fs w)) (md_files ++ liquid_files ++ scss_files)%list.

Lemma check_asset_usage_refs (asset : Path) :
  has_patterns assets_dir asset ->
  check_asset_usage asset md_files liquid_files scss_files assets_dir w =
  (Ok (refs_for asset), w).
Proof.
  intros [patterns Hp]. unfold asset_refs, patterns_of. rewrite Hp.
  now apply check_asset_usage_ok.
Qed.

Lemma classify_loop (todo : list Path)
    (used_assets : list (Path * references)) (unused_assets : list Path) :
  Forall (has_patterns assets_dir) todo ->
  for_ todo
    (fun asset '(used_assets, unused_assets) =>
       refs <- check_asset_usage asset md_files liquid_files scss_files assets_dir ;;
       if has_refs refs
       then ret ((used_assets ++ [(asset, refs)])%list, unused_assets)
       else ret (used_assets, (unused_assets ++ [asset])%list))
    (used_assets, unused_assets) w =
  (Ok ((used_assets ++ map (fun a => (a, refs_for a)) (filter used todo))%list,
       (unused_assets ++ filter (fun a => negb (used a)) todo)%list), w).
Proof.
  revert used_assets unused_assets.
  induction todo as [|a todo IH]; intros used_assets unused_assets Hall.
  - simpl. now rewrite !app_nil_r.
  - inversion Hall as [|? ? Ha Hrest]; subst.
    cbn [for_]. unfold bind at 1. unfold bind at 1.
    rewrite (check_asset_usage_refs a Ha).
    fold (used a). cbn [filter map].
    destruct (used a) eqn:Hu; cbn [negb]; unfold ret at 1;
      rewrite IH by assumption; cbn [map]; rewrite <- app_assoc; reflexivity.
Qed.

(** Over readable source files and assets below the assets directory, the
    classification completes, changes nothing, and splits the sorted assets
    by [is_used]. *)
Lemma classify_ok (assets : list Path) :
  Forall (has_patterns assets_dir) assets ->
  classify assets md_files liquid_files scss_files assets_dir w =
  (Ok (map (fun a => (a, refs_for a)) (filter used (sorted assets)),
       filter (fun a => negb (used a)) (sorted assets)), w).
Proof.
  intros Hall. unfold classify. rewrite classify_loop; [reflexivity|].
  apply Forall_forall. intros a Ha.
  exact (proj1 (Forall_forall _ _) Hall a (proj1 (sorted_in _ _) Ha)).
Qed.

End Classification.

(** ** The file system and the enumerators *)

Section FileSystem.

Lemma lookup_app (root n : node) (ps qs : list string) :
  FS.lookup root ps = Some n -> FS.lookup root (ps ++ qs) = FS.lookup n qs.
Proof.
  revert root; induction ps as [|p ps IH]; intros root; simpl.
  - now intros [= ->].
  - destruct root as [|entries]; [discriminate|].
    destruct (FS.find_entry p entries); [apply IH | discriminate].
Qed.

Lemma unique_names_cons (e : string * node) (rest : list (string * node)) :
  FS.unique_names (Dir (e :: rest)) =
  negb (Str.mem (fst e) (map fst rest)) && FS.unique_names (snd e)
  && FS.unique_names (Dir rest).
Proof. reflexivity. Qed.

Lemma mem_in (x : string) (xs : list string) : Str.mem x xs = true <-> In x xs.
Proof.
  unfold Str.mem. rewrite existsb_exists. split.
  - intros [y [Hy Hxy]]. apply String.eqb_eq in Hxy. now subst.
  - intros H. exists x. split; [exact H | apply String.eqb_refl].
Qed.

Lemma unique_names_entry (entries : list (string * node)) (e : string * node) :
  FS.unique_names (Dir entries) = true -> In e entries ->
  FS.find_entry (fst e) entries = Some (snd e) /\ FS.unique_names (snd e) = true.
Proof.
  induction entries as [|[n c] rest IH]; intros Hu Hin; [contradiction|].
  rewrite unique_names_cons in Hu.
  apply andb_true_iff in Hu as [Hu Hrest].
  apply andb_true_iff in Hu as [Hfresh Hc].
  simpl in Hfresh, Hc. destruct Hin as [<- | Hin]; simpl.
  - now rewrite String.eqb_refl.
  - destruct (String.eqb_spec (fst e) n) as [Heq | Hne].
    + exfalso. apply negb_true_iff in Hfresh.
      assert (Hm : Str.mem n (map fst rest) = true).
      { apply mem_in. rewrite <- Heq. now apply in_map. }
      congruence.
    + now apply IH.
Qed.

Lemma find_entry_in (entries : list (string * node)) (name : string) (c : node) :
  FS.find_entry name entries = Some c -> In (name, c) entries.
Proof.
  induction entries as [|[n d] rest IH]; simpl; [discriminate|].
  destruct (String.eqb_spec name n) as [-> | Hne].
  - intros [= ->]. now left.
  - intros H. right. now apply IH.
Qed.

(** Below a tree without repeated names, every tree is without repeated
    names. *)
Lemma lookup_unique (root n : node) (ps : list string) :
  FS.unique_names root = true -> FS.lookup root ps = Some n ->
  FS.unique_names n = true.
Proof.
  revert root; induction ps as [|p ps IH]; intros root Hu; simpl.
  - now intros [= <-].
  - destruct root as [|entries]; [discriminate|].
    destruct (FS.find_entry p entries) as [c|] eqn:Hf; [|discriminate].
    apply IH. apply find_entry_in in Hf.
    apply (unique_names_entry entries (p, c) Hu Hf).
Qed.

Lemma in_nondirs (entries : list (string * node)) (name : string) :
  In name (FS.nondirs entries) <->
  exists r d, In (name, File r d) entries.
Proof.
  unfold FS.nondirs. rewrite in_map_iff. split.
  - intros [[n c] [<- Hin]]. apply filter_In in Hin as [Hin Hc].
    destruct c as [r d|]; [|discriminate]. now exists r, d.
  - intros (r & d & Hin). exists (name, File r d). split; [reflexivity|].
    apply filter_In. now split.
Qed.

(** Every asset below a directory extends the path of the directory by the
    path of a file in it. *)
Lemma assets_under_spec (n : node) : forall (top a : Path),
  In a (assets_under top n) ->
  absolute a = absolute top /\
  exists rest, rest <> [] /\ parts a = (parts top ++ rest)%list /\
    (FS.unique_names n = true -> exists r d, FS.lookup n rest = Some (File r d)).
Proof.
  induction n as [r d | entries IH] using node_rect'; intros top a Hin.
  - contradiction.
  - unfold assets_under in Hin. cbn [FS.os_walk flat_map] in Hin.
    apply in_app_or in Hin as [Hin | Hin].
    + apply in_map_iff in Hin as [name [<- Hname]].
      split; [reflexivity|]. exists [name]. repeat split; [discriminate|].
      intros Hu. apply in_nondirs in Hname as (r & d & He).
      exists r, d.
      pose proof (proj1 (unique_names_entry entries (name, File r d) Hu He)) as Hf.
      simpl in Hf |- *. now rewrite Hf.
    + apply in_flat_map in Hin as [[[root ds] files] [Ht Hin]].
      apply in_flat_map in Ht as [e [He Ht]].
      assert (Hsub : In a (assets_under (PathLib.child top (fst e)) (snd e))).
      { unfold assets_under. apply in_flat_map.
        exists (root, ds, files). now split. }
      rewrite Forall_forall in IH.
      destruct (IH e He _ _ Hsub) as [Habs [rest (Hne & Hparts & Hfile)]].
      split; [exact Habs|]. exists (fst e :: rest).
      repeat split; [discriminate | |].
      * rewrite Hparts. simpl. now rewrite <- app_assoc.
      * intros Hu. destruct (unique_names_entry entries e Hu He) as [Hf Hue].
        simpl. rewrite Hf. now apply Hfile.
Qed.

Lemma find_all_assets_eq (assets_dir : Path) (w : world) :
  find_all_assets assets_dir w =
  (Ok match FS.lookup (fs w) (parts assets_dir) with
      | Some n => assets_under assets_dir n
      | None => []
      end, w).
Proof.
  unfold find_all_assets, bind, os_walk, ret, assets_under.
  now destruct (FS.lookup (fs w) (parts assets_dir)).
Qed.

(** What [main] relies on for each asset it enumerates. *)
Lemma find_all_assets_spec (assets_dir : Path) (w : world)
    (assets : list Path) (a : Path) :
  find_all_assets assets_dir w = (Ok assets, w) -> In a assets ->
  absolute a = absolute assets_dir /\
  exists rest, rest <> [] /\ parts a = (parts assets_dir ++ rest)%list /\
    (FS.unique_names (fs w) = true ->
     exists r d, FS.lookup (fs w) (parts a) = Some (File r d)).
Proof.
  rewrite find_all_assets_eq. intros [= <-] Hin.
  destruct (FS.lookup (fs w) (parts assets_dir)) as [n|] eqn:Hl; [|contradiction].
  destruct (assets_under_spec n _ _ Hin) as [Habs [rest (Hne & Hparts & Hfile)]].
  split; [exact Habs|]. exists rest. repeat split; try assumption.
  intros Hu. rewrite Hparts, (lookup_app _ _ _ _ Hl).
  apply Hfile. exact (lookup_unique _ _ _ Hu Hl).
Qed.

End FileSystem.

(** ** The patterns of an asset *)

Section Patterns.

Variables assets_dir asset : Path.

Lemma build_patterns_eq (rel : Path) :
  relative_to asset (PathLib.parent assets_dir) = Ok rel ->
  build_patterns asset assets_dir =
  Ok ([PathLib.str rel; ("/" ++ PathLib.str rel)%string; PathLib.name asset]
      ++ if is_image asset then [PathLib.stem asset] else [])%list.
Proof.
  intros Hrel. unfold build_patterns, is_image. rewrite Hrel.
  now destruct (Str.mem _ image_suffixes).
Qed.

(** An asset below the assets directory is relative to the project root,
    under a path that is not empty and ends in the asset's name. *)
Lemma below_relative :
  below assets_dir asset ->
  exists rel, relative_to asset (PathLib.parent assets_dir) = Ok rel /\
              parts rel <> [] /\
              Str.str_in (PathLib.name asset) (PathLib.str rel) = true.
Proof.
  intros [Habs [rest (Hne & Hparts)]].
  destruct (removelast_prefix (parts assets_dir)) as [r1 Hr1].
  assert (Hrel : relative_to asset (PathLib.parent assets_dir)
                 = Ok (mkPath false (r1 ++ rest))).
  { apply relative_to_iff. simpl. repeat split; [exact Habs|].
    rewrite app_assoc, <- Hr1. exact Hparts. }
  assert (Hnonempty : (r1 ++ rest)%list <> []).
  { intros E. apply app_eq_nil in E. tauto. }
  exists (mkPath false (r1 ++ rest)). repeat split; try assumption.
  exact (proj2 (name_in_relative _ _ _ Hrel Hnonempty)).
Qed.

Lemma below_has_patterns : below assets_dir asset -> has_patterns assets_dir asset.
Proof.
  intros Hb. destruct (below_relative Hb) as [rel (Hrel & _)].
  eexists. exact (build_patterns_eq rel Hrel).
Qed.

Lemma below_relative_to_dir :
  below assets_dir asset -> exists rel, relative_to asset assets_dir = Ok rel.
Proof.
  intros [Habs [rest (_ & Hparts)]]. exists (mkPath false rest).
  apply relative_to_iff. auto.
Qed.

End Patterns.

Lemma enumerated_below (assets_dir : Path) (w : world) (assets : list Path) :
  find_all_assets assets_dir w = (Ok assets, w) ->
  Forall (below assets_dir) assets.
Proof.
  intros Hfind. apply Forall_forall. intros a Ha.
  destruct (find_all_assets_spec _ _ _ _ Hfind Ha) as [Habs [rest (Hne & Hp & _)]].
  split; [exact Habs|]. now exists rest.
Qed.

Lemma enumerated_has_patterns (assets_dir : Path) (w : world) (assets : list Path) :
  find_all_assets assets_dir w = (Ok assets, w) ->
  Forall (has_patterns assets_dir) assets.
Proof.
  intros Hfind. eapply Forall_impl; [|exact (enumerated_below _ _ _ Hfind)].
  intros a. apply below_has_patterns.
Qed.

(** ** Used or unused: every asset in exactly one list *)

Lemma has_refs_true (refs : references) :
  has_refs refs = true <-> md refs <> [] \/ liquid refs <> [] \/ scss refs <> [].
Proof.
  unfold has_refs. simpl.
  destruct (md refs), (liquid refs), (scss refs); simpl;
    split; intros H; try reflexivity; try discriminate;
    try (destruct H as [H | [H | H]]; congruence);
    try (left; discriminate); try (right; left; discriminate);
    right; right; discriminate.
Qed.

Lemma has_refs_false (refs : references) :
  has_refs refs = false <-> md refs = [] /\ liquid refs = [] /\ scss refs = [].
Proof.
  unfold has_refs. simpl.
  destruct (md refs), (liquid refs), (scss refs); simpl;
    split; intros H; try discriminate; auto;
    destruct H as (? & ? & ?); discriminate.
Qed.

(** C1.  Every asset found under the assets directory is, once the
    classification has run over readable sources, in exactly one of the two
    lists: in [used_assets], with its references, when one of its three
    reference lists is not empty, and in [unused_assets] when all three are
    empty.  Nothing else is in either list. *)
Theorem C1_used_xor_unused (assets_dir : Path) (w : world)
    (assets md_files liquid_files scss_files : list Path) :
  find_all_assets assets_dir w = (Ok assets, w) ->
  all_readable (fs w) (md_files ++ liquid_files ++ scss_files)%list = true ->
  exists used_assets unused_assets,
    classify assets md_files liquid_files scss_files assets_dir w
      = (Ok (used_assets, unused_assets), w) /\
    (forall asset, In asset assets ->
       exists refs,
         check_asset_usage asset md_files liquid_files scss_files assets_dir w
           = (Ok refs, w) /\
         (md refs <> [] \/ liquid refs <> [] \/ scss refs <> [] ->
          In (asset, refs) used_assets /\ ~ In asset unused_assets) /\
         (md refs = [] /\ liquid refs = [] /\ scss refs = [] ->
          In asset unused_assets /\ ~ In asset (map fst used_assets))) /\
    (forall asset, In asset (map fst used_assets) \/ In asset unused_assets ->
       In asset assets).
Proof.
  intros Hfind Hread. apply all_readable_Forall in Hread.
  pose proof (enumerated_has_patterns _ _ _ Hfind) as Hpat.
  do 2 eexists. split; [apply (classify_ok _ _ _ _ _ Hread _ Hpat)|]. split.
  - intros asset Hin.
    exists (asset_refs assets_dir md_files liquid_files scss_files w asset).
    split.
    { apply check_asset_usage_refs; [exact Hread|].
      exact (proj1 (Forall_forall _ _) Hpat asset Hin). }
    split.
    + intros Hsome. apply has_refs_true in Hsome. split.
      * apply in_map_iff. exists asset. split; [reflexivity|].
        apply filter_In. split; [now apply sorted_in | exact Hsome].
      * intros Hun. apply filter_In in Hun as [_ Hun].
        unfold is_used in Hun. now rewrite Hsome in Hun.
    + intros Hnone. apply has_refs_false in Hnone. split.
      * apply filter_In. split; [now apply sorted_in|].
        unfold is_used. now rewrite Hnone.
      * rewrite map_map, in_map_iff. intros [a [Ha Hu]]. simpl in Ha. subst a.
        apply filter_In in Hu as [_ Hu]. unfold is_used in Hu. congruence.
  - intros asset [Hu | Hu].
    + rewrite map_map in Hu. apply in_map_iff in Hu as [a [Ha Hu]].
      simpl in Ha. subst a. apply filter_In in Hu as [Hu _].
      now apply sorted_in.
    + apply filter_In in Hu as [Hu _]. now apply sorted_in.
Qed.

Lemma C1_used_xor_unused_witness :
  find_all_assets Sample.assets_dir Sample.w0 = (Ok Sample.assets, Sample.w0) /\
  all_readable (fs Sample.w0)
    (Sample.md_files ++ Sample.liquid_files ++ Sample.scss_files)%list = true /\
  exists used_assets unused_assets,
    classify Sample.assets Sample.md_files Sample.liquid_files Sample.scss_files
             Sample.assets_dir Sample.w0
      = (Ok (used_assets, unused_assets), Sample.w0) /\
    forall asset, In asset (map fst used_assets) \/ In asset unused_assets ->
                  In asset Sample.assets.
Proof.
  split; [reflexivity|]. split; [reflexivity|].
  destruct (C1_used_xor_unused Sample.assets_dir Sample.w0 Sample.assets
              Sample.md_files Sample.liquid_files Sample.scss_files
              eq_refl eq_refl) as [used [unused (Hc & _ & Hin)]].
  exists used, unused. split; assumption.
Defined.

(** ** A file that contains a pattern is recorded *)

Lemma contains_any_in (patterns : list string) (text pattern : string) :
  In pattern patterns -> Str.str_in pattern text = true ->
  contains_any patterns text = true.
Proof.
  intros Hin Hp. apply existsb_exists. now exists pattern.
Qed.

Lemma content_text (root : node) (f : Path) (text : string) :
  text_of root f = Ok text -> content root f = text.
Proof. intros H. unfold content. now rewrite H. Qed.

(** C2.  When the text of a markdown, template or stylesheet file contains
    the asset's path relative to the project root, its file name, or, for
    an asset with an image extension, its stem, the asset is classified as
    used, and the references of the asset list the file under its category:
    a markdown file by its name, a template or a stylesheet by its path
    relative to the parent of its directory. *)
Theorem C2_reference_recorded (assets_dir : Path) (w : world)
    (assets md_files liquid_files scss_files : list Path) :
  find_all_assets assets_dir w = (Ok assets, w) ->
  all_readable (fs w) (md_files ++ liquid_files ++ scss_files)%list = true ->
  exists used_assets unused_assets,
    classify assets md_files liquid_files scss_files assets_dir w
      = (Ok (used_assets, unused_assets), w) /\
    forall asset rel f text,
      In asset assets ->
      relative_to asset (PathLib.parent assets_dir) = Ok rel ->
      In f (md_files ++ liquid_files ++ scss_files)%list ->
      text_of (fs w) f = Ok text ->
      Str.str_in (PathLib.str rel) text = true \/
      Str.str_in (PathLib.name asset) text = true \/
      (is_image asset = true /\ Str.str_in (PathLib.stem asset) text = true) ->
      exists refs,
        check_asset_usage asset md_files liquid_files scss_files assets_dir w
          = (Ok refs, w) /\
        In (asset, refs) used_assets /\ ~ In asset unused_assets /\
        (In f md_files -> In (PathLib.name f) (md refs)) /\
        (In f liquid_files -> In (entry_of f) (liquid refs)) /\
        (In f scss_files -> In (entry_of f) (scss refs)).
Proof.
  intros Hfind Hread. apply all_readable_Forall in Hread.
  pose proof (enumerated_has_patterns _ _ _ Hfind) as Hpat.
  do 2 eexists. split; [apply (classify_ok _ _ _ _ _ Hread _ Hpat)|].
  intros asset rel f text Hin Hrel Hf Htext Hoccurs.
  set (refs := asset_refs assets_dir md_files liquid_files scss_files w asset).
  assert (Hhit : hit (patterns_of assets_dir asset) (fs w) f = true).
  { unfold hit, patterns_of. rewrite (build_patterns_eq _ _ _ Hrel).
    rewrite (content_text _ _ _ Htext).
    destruct Hoccurs as [H | [H | [Himg H]]].
    - eapply contains_any_in; [|exact H]. simpl. auto.
    - eapply contains_any_in; [|exact H]. simpl. auto.
    - eapply contains_any_in; [|exact H]. rewrite Himg. simpl. auto. }
  assert (Hmd : In f md_files -> In (PathLib.name f) (md refs)).
  { intros H. apply in_map. apply filter_In. now split. }
  assert (Hli : In f liquid_files -> In (entry_of f) (liquid refs)).
  { intros H. apply in_map. apply filter_In. now split. }
  assert (Hsc : In f scss_files -> In (entry_of f) (scss refs)).
  { intros H. apply in_map. apply filter_In. now split. }
  assert (Hused : has_refs refs = true).
  { apply has_refs_true.
    apply in_app_or in Hf as [Hf | Hf]; [|apply in_app_or in Hf as [Hf | Hf]].
    - left. intros E. specialize (Hmd Hf). now rewrite E in Hmd.
    - right; left. intros E. specialize (Hli Hf). now rewrite E in Hli.
    - right; right. intros E. specialize (Hsc Hf). now rewrite E in Hsc. }
  exists refs. split.
  { apply check_asset_usage_refs; [exact Hread|].
    exact (proj1 (Forall_forall _ _) Hpat asset Hin). }
  split.
  { apply in_map_iff. exists asset. split; [reflexivity|].
    apply filter_In. split; [now apply sorted_in | exact Hused]. }
  split.
  { intros Hun. apply filter_In in Hun as [_ Hun].
    unfold is_used in Hun. fold refs in Hun. now rewrite Hused in Hun. }
  auto.
Qed.

Lemma C2_reference_recorded_witness :
  find_all_assets Sample.assets_dir Sample.w0 = (Ok Sample.assets, Sample.w0) /\
  all_readable (fs Sample.w0)
    (Sample.md_files ++ Sample.liquid_files ++ Sample.scss_files)%list = true /\
  exists refs,
    check_asset_usage Sample.logo Sample.md_files Sample.liquid_files
      Sample.scss_files Sample.assets_dir Sample.w0 = (Ok refs, Sample.w0) /\
    In "index.md" (md refs).
Proof.
  split; [reflexivity|]. split; [reflexivity|].
  destruct (C2_reference_recorded Sample.assets_dir Sample.w0 Sample.assets
              Sample.md_files Sample.liquid_files Sample.scss_files
              eq_refl eq_refl) as [used [unused [_ H]]].
  destruct (H Sample.logo (mkPath false ["assets"; "img"; "logo.png"])
              Sample.index_md "![Logo](assets/img/logo.png)")
    as [refs (Hrefs & _ & _ & Hmd & _)].
  - simpl. auto.
  - reflexivity.
  - simpl. auto.
  - reflexivity.
  - left. reflexivity.
  - exists refs. split; [exact Hrefs|]. apply Hmd. simpl. auto.
Defined.

(** ** The pattern set *)










(** ** One entry per file *)

(** C4.  The scan of one file stops at the first pattern found: the file is
    recorded once when some pattern occurs in it, however many do, and not
    at all otherwise.  The reference list of a category therefore holds one
    entry for each file of the category that contains a pattern, in the
    order of the files; files after a recorded one are scanned all the
    same. *)
Theorem C4_recorded_once (asset assets_dir : Path)
    (md_files liquid_files scss_files : list Path) (w : world)
    (patterns : list string) :
  build_patterns asset assets_dir = Ok patterns ->
  all_readable (fs w) (md_files ++ liquid_files ++ scss_files)%list = true ->
  (forall text record refs,
     scan patterns text record refs =
     if contains_any patterns text then record else ret refs) /\
  exists refs,
    check_asset_usage asset md_files liquid_files scss_files assets_dir w
      = (Ok refs, w) /\
    md refs = map PathLib.name
                (filter (fun f => contains_any patterns (content (fs w) f)) md_files) /\
    liquid refs = map entry_of
                (filter (fun f => contains_any patterns (content (fs w) f)) liquid_files) /\
    scss refs = map entry_of
                (filter (fun f => contains_any patterns (content (fs w) f)) scss_files) /\
    length (md refs) <= length md_files /\
    length (liquid refs) <= length liquid_files /\
    length (scss refs) <= length scss_files.
Proof.
  intros Hp Hread. apply all_readable_Forall in Hread.
  split; [intros; apply scan_eq|].
  exists (refs_of patterns (fs w) md_files liquid_files scss_files).
  split; [now apply check_asset_usage_ok|].
  repeat split; simpl; rewrite length_map; apply filter_length_le.
Qed.

Lemma C4_recorded_once_witness :
  build_patterns Sample.logo Sample.assets_dir =
    Ok ["assets/img/logo.png"; "/assets/img/logo.png"; "logo.png"; "logo"] /\
  all_readable (fs Sample.w0)
    (Sample.md_files ++ Sample.liquid_files ++ Sample.scss_files)%list = true /\
  exists refs,
    check_asset_usage Sample.logo Sample.md_files Sample.liquid_files
      Sample.scss_files Sample.assets_dir Sample.w0 = (Ok refs, Sample.w0) /\
    md refs = ["index.md"].
Proof.
  split; [reflexivity|]. split; [reflexivity|].
  destruct (C4_recorded_once Sample.logo Sample.assets_dir Sample.md_files
              Sample.liquid_files Sample.scss_files Sample.w0 _ eq_refl eq_refl)
    as [_ [refs (Hrefs & Hmd & _)]].
  exists refs. split; [exact Hrefs|]. rewrite Hmd. reflexivity.
Defined.

(** ** The report *)

Section Report.

Variable assets_dir : Path.
Variable root : node.

Lemma print_run (text : string) (out : list string) :
  print text (mkWorld root out) = (Ok tt, mkWorld root (out ++ [text])).
Proof. reflexivity. Qed.

Lemma st_size_file (a : Path) (out : list string) :
  is_file root a ->
  st_size a (mkWorld root out) = (Ok (size_of root a), mkWorld root out).
Proof.
  intros (r & d & Hl). unfold st_size, size_of. simpl. now rewrite Hl.
Qed.

Lemma rel_str_ok (a : Path) :
  below assets_dir a ->
  relative_to a assets_dir = Ok (mkPath false (skipn (length (parts assets_dir)) (parts a))) /\
  rel_str assets_dir a =
    PathLib.str (mkPath false (skipn (length (parts assets_dir)) (parts a))).
Proof.
  intros [Habs [rest (_ & Hparts)]].
  assert (Hrel : relative_to a assets_dir = Ok (mkPath false rest))
    by (apply relative_to_iff; auto).
  assert (Hskip : skipn (length (parts assets_dir)) (parts a) = rest).
  { rewrite Hparts, skipn_app, skipn_all, Nat.sub_diag. reflexivity. }
  unfold rel_str. rewrite Hskip, Hrel. auto.
Qed.

Lemma unused_loop (unused_assets : list Path) (total_size : nat)
    (out : list string) :
  Forall (fun a => below assets_dir a /\ is_file root a) unused_assets ->
  for_ unused_assets
    (fun asset total_size =>
       rel_path <- lift (relative_to asset assets_dir) ;;
       size <- st_size asset ;;
       let total_size := total_size + size in
       print ("  " ++ PathLib.str rel_path ++ " (" ++ format_commas size ++ " bytes)") ;;
       ret total_size)
    total_size (mkWorld root out) =
  (Ok (total_size + list_sum (map (size_of root) unused_assets)),
   mkWorld root (out ++ map (unused_line assets_dir root) unused_assets)).
Proof.
  revert total_size out.
  induction unused_assets as [|a rest IH]; intros total_size out Hall.
  - simpl. unfold ret. now rewrite Nat.add_0_r, app_nil_r.
  - inversion Hall as [|? ? [Hb Hf] Hrest]; subst.
    destruct (rel_str_ok a Hb) as [Hrel Hstr].
    cbn [for_]. unfold bind at 1. unfold bind at 1. unfold lift at 1.
    rewrite Hrel. unfold bind at 1. rewrite (st_size_file a out Hf).
    unfold bind at 1. rewrite print_run. unfold ret at 1.
    rewrite IH by assumption. cbn [map list_sum].
    unfold unused_line at 2. rewrite Hstr.
    change (list_sum (size_of root a :: map (size_of root) rest))
      with (size_of root a + list_sum (map (size_of root) rest)).
    rewrite <- app_assoc, Nat.add_assoc. reflexivity.
Qed.

Lemma report_unused_ok (unused_assets : list Path) (out : list string) :
  Forall (fun a => below assets_dir a /\ is_file root a) unused_assets ->
  report_unused unused_assets assets_dir (mkWorld root out) =
  (Ok (list_sum (map (size_of root) unused_assets)),
   mkWorld root
     (out ++ [(nl ++ bar)%string; "UNUSED ASSETS (not referenced anywhere)"; bar]
          ++ map (unused_line assets_dir root) unused_assets
          ++ [total_unused_line (length unused_assets)
                (list_sum (map (size_of root) unused_assets))])%list).
Proof.
  intros Hall. unfold report_unused.
  unfold bind at 1. rewrite print_run.
  unfold bind at 1. rewrite print_run.
  unfold bind at 1. rewrite print_run.
  unfold bind at 1. rewrite (unused_loop _ _ _ Hall).
  unfold bind at 1. rewrite print_run. unfold ret.
  rewrite <- !app_assoc. reflexivity.
Qed.

Lemma used_loop (used_assets : list (Path * references)) (out : list string) :
  Forall (fun e => below assets_dir (fst e)) used_assets ->
  for_ used_assets
    (fun '(asset, refs) _ =>
       rel_path <- lift (relative_to asset assets_dir) ;;
       let ref_summary : list string := [] in
       let ref_summary :=
         if truthy (md refs)
         then (ref_summary ++ [("md: " ++ Str.join ", " (firstn 3 (md refs)))%string])%list
         else ref_summary in
       let ref_summary :=
         if truthy (liquid refs)
         then (ref_summary ++ [("liquid: " ++ Str.join ", " (firstn 3 (liquid refs)))%string])%list
         else ref_summary in
       let ref_summary :=
         if truthy (scss refs)
         then (ref_summary ++ [("scss: " ++ Str.join ", " (firstn 3 (scss refs)))%string])%list
         else ref_summary in
       print ("  " ++ PathLib.str rel_path) ;;
       print ("    -> " ++ Str.join "; " ref_summary))
    tt (mkWorld root out) =
  (Ok tt, mkWorld root (out ++ flat_map (used_lines assets_dir) used_assets)).
Proof.
  revert out. induction used_assets as [|[a refs] rest IH]; intros out Hall.
  - simpl. unfold ret. now rewrite app_nil_r.
  - inversion Hall as [|? ? Hb Hrest]; subst. simpl in Hb.
    destruct (rel_str_ok a Hb) as [Hrel Hstr].
    cbn [for_]. unfold bind at 1. unfold bind at 1. unfold lift at 1.
    rewrite Hrel. cbv zeta. unfold bind at 1. rewrite print_run, print_run.
    rewrite IH by assumption. cbn [flat_map]. unfold used_lines at 2.
    cbn [fst snd]. rewrite Hstr. unfold ref_summary.
    rewrite <- !app_assoc.
    destruct (md refs), (liquid refs), (scss refs); reflexivity.
Qed.

Lemma report_used_ok (used_assets : list (Path * references)) (out : list string) :
  Forall (fun e => below assets_dir (fst e)) used_assets ->
  report_used used_assets assets_dir (mkWorld root out) =
  (Ok tt, mkWorld root
     (out ++ [bar; "USED ASSETS"; bar]
          ++ flat_map (used_lines assets_dir) used_assets)%list).
Proof.
  intros Hall. unfold report_used.
  unfold bind at 1. rewrite print_run.
  unfold bind at 1. rewrite print_run.
  unfold bind at 1. rewrite print_run.
  rewrite (used_loop _ _ Hall). rewrite <- !app_assoc. reflexivity.
Qed.

End Report.

(** ** What a computation may do to the world *)

Section Frame.

Lemma silent_appends {A} (m : M A) : silent m -> appends m.
Proof.
  intros H root. destruct (H root) as [r Hr]. exists r, [].
  intros out. now rewrite app_nil_r.
Qed.

Lemma silent_ret {A} (a : A) : silent (ret a).
Proof. intros root. now exists (Ok a). Qed.

Lemma silent_lift {A} (r : result A) : silent (lift r).
Proof. intros root. now exists r. Qed.

Lemma silent_bind {A B} (m : M A) (k : A -> M B) :
  silent m -> (forall a, silent (k a)) -> silent (bind m k).
Proof.
  intros Hm Hk root. destruct (Hm root) as [[a|e] Hr].
  - destruct (Hk a root) as [r' Hr']. exists r'. intros out.
    unfold bind. now rewrite Hr.
  - exists (Raise e). intros out. unfold bind. now rewrite Hr.
Qed.

Lemma silent_for {A S} (xs : list A) (body : A -> S -> M S) :
  (forall x s, silent (body x s)) -> forall s, silent (for_ xs body s).
Proof.
  intros Hbody. induction xs as [|x xs IH]; intros s; simpl.
  - apply silent_ret.
  - apply silent_bind; [apply Hbody | exact IH].
Qed.

Lemma silent_read_text (p : Path) : silent (read_text p).
Proof. intros root. now exists (text_of root p). Qed.

Lemma silent_st_size (p : Path) : silent (st_size p).
Proof.
  intros root. unfold st_size. simpl.
  destruct (FS.lookup root (parts p)) as [[r d|es]|]; eexists; intros out; reflexivity.
Qed.

Lemma silent_os_walk (top : Path) : silent (os_walk top).
Proof.
  intros root. eexists. intros out. unfold os_walk. cbn [fs]. reflexivity.
Qed.

Lemma silent_glob_star (dir : Path) (ext : string) : silent (glob_star dir ext).
Proof.
  intros root. eexists. intros out. unfold glob_star. cbn [fs]. reflexivity.
Qed.

Lemma silent_glob_below (dir : Path) (sub ext : string) :
  silent (glob_below dir sub ext).
Proof.
  intros root. eexists. intros out. unfold glob_below. cbn [fs]. reflexivity.
Qed.

Lemma silent_scan (patterns : list string) (text : string)
    (record : M references) (refs : references) :
  silent record -> silent (scan patterns text record refs).
Proof.
  intros Hr. rewrite scan_eq.
  destruct (contains_any patterns text); [exact Hr | apply silent_ret].
Qed.

Lemma silent_find_all_assets (d : Path) : silent (find_all_assets d).
Proof.
  apply silent_bind; [apply silent_os_walk | intros; apply silent_ret].
Qed.

Lemma silent_find_all_md_files (d : Path) : silent (find_all_md_files d).
Proof.
  apply silent_bind; [apply silent_glob_star | intros; apply silent_ret].
Qed.

Lemma silent_find_all_liquid_files (d : Path) : silent (find_all_liquid_files d).
Proof.
  apply silent_for. intros sub files.
  apply silent_bind; [apply silent_glob_below | intros; apply silent_ret].
Qed.

Lemma silent_find_all_scss_files (d : Path) : silent (find_all_scss_files d).
Proof. apply silent_glob_below. Qed.

Lemma silent_check_asset_usage (asset : Path)
    (md_files liquid_files scss_files : list Path) (assets_dir : Path) :
  silent (check_asset_usage asset md_files liquid_files scss_files assets_dir).
Proof.
  unfold check_asset_usage.
  apply silent_bind; [apply silent_lift | intros patterns].
  apply silent_bind.
  { apply silent_for. intros f refs.
    apply silent_bind; [apply silent_read_text | intros text].
    apply silent_scan, silent_ret. }
  intros refs1. apply silent_bind.
  { apply silent_for. intros f refs.
    apply silent_bind; [apply silent_read_text | intros text].
    apply silent_scan.
    apply silent_bind; [apply silent_lift | intros; apply silent_ret]. }
  intros refs2. apply silent_bind.
  { apply silent_for. intros f refs.
    apply silent_bind; [apply silent_read_text | intros text].
    apply silent_scan.
    apply silent_bind; [apply silent_lift | intros; apply silent_ret]. }
  intros refs3. apply silent_ret.
Qed.

Lemma silent_classify (assets md_files liquid_files scss_files : list Path)
    (assets_dir : Path) :
  silent (classify assets md_files liquid_files scss_files assets_dir).
Proof.
  apply silent_for. intros asset [used unused].
  apply silent_bind; [apply silent_check_asset_usage | intros refs].
  destruct (has_refs refs); apply silent_ret.
Qed.

Lemma appends_print (text : string) : appends (print text).
Proof. intros root. now exists (Ok tt), [text]. Qed.

Lemma appends_bind {A B} (m : M A) (k : A -> M B) :
  appends m -> (forall a, appends (k a)) -> appends (bind m k).
Proof.
  intros Hm Hk root. destruct (Hm root) as [[a|e] [lines Hr]].
  - destruct (Hk a root) as [r' [lines' Hr']]. exists r', (lines ++ lines')%list.
    intros out. unfold bind. now rewrite Hr, Hr', app_assoc.
  - exists (Raise e), lines. intros out. unfold bind. now rewrite Hr.
Qed.

Lemma appends_for {A S} (xs : list A) (body : A -> S -> M S) :
  (forall x s, appends (body x s)) -> forall s, appends (for_ xs body s).
Proof.
  intros Hbody. induction xs as [|x xs IH]; intros s; simpl.
  - apply silent_appends, silent_ret.
  - apply appends_bind; [apply Hbody | exact IH].
Qed.

Lemma appends_report_used (used_assets : list (Path * references))
    (assets_dir : Path) : appends (report_used used_assets assets_dir).
Proof.
  unfold report_used.
  do 3 (apply appends_bind; [apply appends_print | intros _]).
  apply appends_for. intros [asset refs] [].
  apply appends_bind; [apply silent_appends, silent_lift | intros rel].
  cbv zeta. apply appends_bind; [apply appends_print | intros _].
  apply appends_print.
Qed.

Lemma appends_report_unused (unused_assets : list Path) (assets_dir : Path) :
  appends (report_unused unused_assets assets_dir).
Proof.
  unfold report_unused.
  do 3 (apply appends_bind; [apply appends_print | intros _]).
  apply appends_bind.
  { apply appends_for. intros asset total.
    apply appends_bind; [apply silent_appends, silent_lift | intros rel].
    apply appends_bind; [apply silent_appends, silent_st_size | intros size].
    cbv zeta. apply appends_bind; [apply appends_print | intros _].
    apply silent_appends, silent_ret. }
  intros total. apply appends_bind; [apply appends_print | intros _].
  apply silent_appends, silent_ret.
Qed.

Lemma appends_main (file__ : Path) : appends (main file__).
Proof.
  unfold main. cbv zeta.
  apply appends_bind; [apply appends_print | intros _].
  apply appends_bind;
    [apply silent_appends, silent_find_all_assets | intros assets].
  apply appends_bind;
    [apply silent_appends, silent_find_all_md_files | intros md_files].
  apply appends_bind;
    [apply silent_appends, silent_find_all_liquid_files | intros liquid_files].
  apply appends_bind;
    [apply silent_appends, silent_find_all_scss_files | intros scss_files].
  do 4 (apply appends_bind; [apply appends_print | intros _]).
  apply appends_bind; [apply silent_appends, silent_classify | intros [used unused]].
  apply appends_bind; [apply appends_report_used | intros _].
  apply appends_bind; [apply appends_report_unused | intros _].
  apply appends_print.
Qed.

(** What a silent computation returns in one world it returns in every
    world with the same file system. *)
Lemma silent_transfer {A} (m : M A) (w w' : world) (r : result A) :
  silent m -> m w = (r, w') ->
  w' = w /\ forall out, m (mkWorld (fs w) out) = (r, mkWorld (fs w) out).
Proof.
  intros Hs Hm. destruct (Hs (fs w)) as [r' Hr'].
  destruct w as [root out0]. simpl in *.
  rewrite Hr' in Hm. injection Hm as <- <-. auto.
Qed.

End Frame.

(** ** The whole run *)

Section WholeRun.

Variable file__ : Path.
Variable w : world.
Variables assets md_files liquid_files scss_files : list Path.

Let root_dir : Path := PathLib.parent file__.
Let assets_dir : Path := PathLib.child root_dir "assets".

Hypothesis found_assets : find_all_assets assets_dir w = (Ok assets, w).
Hypothesis found_md : find_all_md_files root_dir w = (Ok md_files, w).
Hypothesis found_liquid : find_all_liquid_files root_dir w = (Ok liquid_files, w).
Hypothesis found_scss : find_all_scss_files root_dir w = (Ok scss_files, w).

(** Once the classification has completed, so does the run, provided the
    assets are files below the assets directory. *)
Lemma run_main_with (used_assets : list (Path * references))
    (unused_assets : list Path) :
  classify assets md_files liquid_files scss_files assets_dir w
    = (Ok (used_assets, unused_assets), w) ->
  Forall (fun e => below assets_dir (fst e)) used_assets ->
  Forall (fun a => below assets_dir a /\ is_file (fs w) a) unused_assets ->
  main file__ w =
  (Ok tt, mkWorld (fs w)
     (stdout w ++ report_text assets_dir (fs w) assets md_files liquid_files
                    scss_files used_assets unused_assets)%list).
Proof.
  intros Hclassify Hub Hunb.
  destruct (silent_transfer _ _ _ _ (silent_find_all_assets _) found_assets) as [_ Ha].
  destruct (silent_transfer _ _ _ _ (silent_find_all_md_files _) found_md) as [_ Hm].
  destruct (silent_transfer _ _ _ _ (silent_find_all_liquid_files _) found_liquid) as [_ Hl].
  destruct (silent_transfer _ _ _ _ (silent_find_all_scss_files _) found_scss) as [_ Hs].
  destruct (silent_transfer _ _ _ _ (silent_classify _ _ _ _ _) Hclassify) as [_ Hc].
  destruct w as [root out]. cbn [fs stdout] in *.
  unfold main. cbv zeta. fold root_dir. fold assets_dir.
  unfold bind at 1. rewrite print_run.
  unfold bind at 1. rewrite Ha.
  unfold bind at 1. rewrite Hm.
  unfold bind at 1. rewrite Hl.
  unfold bind at 1. rewrite Hs.
  do 4 (unfold bind at 1; rewrite print_run).
  unfold bind at 1. rewrite Hc.
  unfold bind at 1. rewrite (report_used_ok _ _ _ _ Hub).
  unfold bind at 1. rewrite (report_unused_ok _ _ _ _ Hunb).
  rewrite print_run. unfold report_text, report_head.
  rewrite <- !app_assoc. reflexivity.
Qed.

Hypothesis names_unique : FS.unique_names (fs w) = true.
Hypothesis sources_readable :
  Forall (readable (fs w)) (md_files ++ liquid_files ++ scss_files)%list.

Let used_assets : list (Path * references) :=
  map (fun a => (a, asset_refs assets_dir md_files liquid_files scss_files w a))
      (filter (is_used assets_dir md_files liquid_files scss_files w) (sorted assets)).

Let unused_assets : list Path :=
  filter (fun a => negb (is_used assets_dir md_files liquid_files scss_files w a))
         (sorted assets).

Lemma run_classify :
  classify assets md_files liquid_files scss_files assets_dir w
  = (Ok (used_assets, unused_assets), w).
Proof.
  apply classify_ok; [exact sources_readable|].
  exact (enumerated_has_patterns _ _ _ found_assets).
Qed.

Lemma used_assets_below : Forall (fun e => below assets_dir (fst e)) used_assets.
Proof.
  apply Forall_forall. intros e He. unfold used_assets in He.
  apply in_map_iff in He as [a [<- Ha]]. apply filter_In in Ha as [Ha _].
  apply (proj1 (sorted_in _ _)) in Ha. simpl.
  exact (proj1 (Forall_forall _ _) (enumerated_below _ _ _ found_assets) a Ha).
Qed.

Lemma unused_assets_files :
  Forall (fun a => below assets_dir a /\ is_file (fs w) a) unused_assets.
Proof.
  apply Forall_forall. intros a Ha. unfold unused_assets in Ha.
  apply filter_In in Ha as [Ha _]. apply (proj1 (sorted_in _ _)) in Ha. split.
  - exact (proj1 (Forall_forall _ _) (enumerated_below _ _ _ found_assets) a Ha).
  - destruct (find_all_assets_spec _ _ _ _ found_assets Ha) as [_ [rest (_ & _ & Hf)]].
    exact (Hf names_unique).
Qed.

(** Over a file system without repeated names whose sources are readable,
    the run completes and prints [report_text]. *)
Lemma run_main :
  main file__ w =
  (Ok tt, mkWorld (fs w)
     (stdout w ++ report_text assets_dir (fs w) assets md_files liquid_files
                    scss_files used_assets unused_assets)%list).
Proof.
  apply run_main_with;
    [exact run_classify | exact used_assets_below | exact unused_assets_files].
Qed.

End WholeRun.

(** ** Unused assets and the total of their sizes *)

Lemma map_filter_nil {A B} (g : A -> B) (p : A -> bool) (l : list A) :
  map g (filter p l) = [] <-> forall x, In x l -> p x = false.
Proof.
  induction l as [|a l IH]; simpl.
  - split; [intros _ x [] | reflexivity].
  - destruct (p a) eqn:Hp; simpl.
    + split; [discriminate|]. intros H. specialize (H a (or_introl eq_refl)).
      congruence.
    + rewrite IH. split.
      * intros H x [<- | Hx]; auto.
      * intros H x Hx. apply H. now right.
Qed.

Lemma contains_any_false (patterns : list string) (text : string) :
  contains_any patterns text = false <->
  forall pattern, In pattern patterns -> Str.str_in pattern text = false.
Proof.
  unfold contains_any. split.
  - intros H pattern Hin. destruct (Str.str_in pattern text) eqn:E; [|reflexivity].
    assert (Ht : existsb (fun p => Str.str_in p text) patterns = true)
      by (apply existsb_exists; now exists pattern).
    congruence.
  - intros H. destruct (existsb _ patterns) eqn:E; [|reflexivity].
    apply existsb_exists in E as [p [Hin Hp]]. rewrite (H p Hin) in Hp.
    discriminate.
Qed.

(** An asset is unused exactly when no pattern of it occurs in any source
    file. *)
Lemma is_used_false_iff (assets_dir : Path)
    (md_files liquid_files scss_files : list Path) (w : world)
    (asset : Path) (patterns : list string) :
  build_patterns asset assets_dir = Ok patterns ->
  Forall (readable (fs w)) (md_files ++ liquid_files ++ scss_files)%list ->
  is_used assets_dir md_files liquid_files scss_files w asset = false <->
  forall f text pattern,
    In f (md_files ++ liquid_files ++ scss_files)%list ->
    text_of (fs w) f = Ok text -> In pattern patterns ->
    Str.str_in pattern text = false.
Proof.
  intros Hp Hread. unfold is_used, asset_refs, patterns_of. rewrite Hp.
  rewrite has_refs_false. unfold refs_of. cbn [md liquid scss].
  rewrite !map_filter_nil. split.
  - intros (Hmd & Hli & Hsc) f text pattern Hf Htext Hin.
    assert (Hhit : hit patterns (fs w) f = false).
    { apply in_app_or in Hf as [Hf | Hf]; [auto|].
      apply in_app_or in Hf as [Hf | Hf]; auto. }
    unfold hit in Hhit. rewrite (content_text _ _ _ Htext) in Hhit.
    exact (proj1 (contains_any_false _ _) Hhit pattern Hin).
  - intros H.
    assert (Hall : forall f, In f (md_files ++ liquid_files ++ scss_files)%list ->
                             hit patterns (fs w) f = false).
    { intros f Hf. apply contains_any_false. intros pattern Hin.
      apply (H f _ pattern Hf); [|exact Hin].
      apply read_text_readable.
      exact (proj1 (Forall_forall _ _) Hread f Hf). }
    repeat split; intros f Hf; apply Hall; rewrite !in_app_iff; auto.
Qed.

(** C5.  An asset none of whose patterns occurs in any markdown, template
    or stylesheet file is classified as unused, and only such assets are;
    the total the run reports after "Total unused" is the sum of the sizes
    in bytes of the assets in [unused_assets]. *)
Theorem C5_unused_and_total (file__ : Path) (w : world)
    (assets md_files liquid_files scss_files : list Path) :
  FS.unique_names (fs w) = true ->
  find_all_assets (PathLib.child (PathLib.parent file__) "assets") w = (Ok assets, w) ->
  find_all_md_files (PathLib.parent file__) w = (Ok md_files, w) ->
  find_all_liquid_files (PathLib.parent file__) w = (Ok liquid_files, w) ->
  find_all_scss_files (PathLib.parent file__) w = (Ok scss_files, w) ->
  all_readable (fs w) (md_files ++ liquid_files ++ scss_files)%list = true ->
  exists used_assets unused_assets total_size before,
    classify assets md_files liquid_files scss_files
             (PathLib.child (PathLib.parent file__) "assets") w
      = (Ok (used_assets, unused_assets), w) /\
    (forall asset patterns,
       In asset assets ->
       build_patterns asset (PathLib.child (PathLib.parent file__) "assets")
         = Ok patterns ->
       (In asset unused_assets <->
        forall f text pattern,
          In f (md_files ++ liquid_files ++ scss_files)%list ->
          text_of (fs w) f = Ok text -> In pattern patterns ->
          Str.str_in pattern text = false)) /\
    (forall asset, In asset unused_assets ->
       In asset assets /\ ~ In asset (map fst used_assets)) /\
    total_size = list_sum (map (size_of (fs w)) unused_assets) /\
    main file__ w =
      (Ok tt, mkWorld (fs w)
         (stdout w ++ before ++
          [(nl ++ "Total unused: " ++ str_of_nat (length unused_assets)
               ++ " files, " ++ format_commas total_size ++ " bytes")%string;
           ("Total used: " ++ str_of_nat (length used_assets) ++ " files")%string])%list).
Proof.
  intros Hu Ha Hm Hl Hs Hread. apply all_readable_Forall in Hread.
  set (assets_dir := PathLib.child (PathLib.parent file__) "assets") in *.
  exists (map (fun a => (a, asset_refs assets_dir md_files liquid_files scss_files w a))
            (filter (is_used assets_dir md_files liquid_files scss_files w)
                    (sorted assets))).
  exists (filter (fun a => negb (is_used assets_dir md_files liquid_files scss_files w a))
                 (sorted assets)).
  eexists. eexists (report_head assets_dir (fs w) assets md_files liquid_files scss_files _ _).
  split; [exact (run_classify _ _ _ _ _ _ Ha Hread)|].
  split; [|split; [|split; [reflexivity|]]].
  - intros asset patterns Hin Hp.
    rewrite <- (is_used_false_iff _ _ _ _ _ _ _ Hp Hread).
    rewrite filter_In, negb_true_iff, sorted_in. tauto.
  - intros asset Hin. apply filter_In in Hin as [Hin Hun].
    apply negb_true_iff in Hun. split; [now apply sorted_in|].
    rewrite map_map, in_map_iff. intros [a [E Hf]]. simpl in E. subst a.
    apply filter_In in Hf as [_ Hf]. congruence.
  - rewrite (run_main _ _ _ _ _ _ Ha Hm Hl Hs Hu Hread).
    unfold report_text, total_unused_line. reflexivity.
Qed.

Lemma C5_unused_and_total_witness :
  FS.unique_names (fs Sample.w0) = true /\
  find_all_assets (PathLib.child (PathLib.parent Sample.script) "assets") Sample.w0
    = (Ok Sample.assets, Sample.w0) /\
  find_all_md_files (PathLib.parent Sample.script) Sample.w0
    = (Ok Sample.md_files, Sample.w0) /\
  find_all_liquid_files (PathLib.parent Sample.script) Sample.w0
    = (Ok Sample.liquid_files, Sample.w0) /\
  find_all_scss_files (PathLib.parent Sample.script) Sample.w0
    = (Ok Sample.scss_files, Sample.w0) /\
  all_readable (fs Sample.w0)
    (Sample.md_files ++ Sample.liquid_files ++ Sample.scss_files)%list = true /\
  exists (used_assets : list (Path * references)) before,
    main Sample.script Sample.w0 =
      (Ok tt, mkWorld (fs Sample.w0)
         (before ++
          [(nl ++ "Total unused: 1 files, 10 bytes")%string;
           ("Total used: " ++ str_of_nat (length used_assets) ++ " files")%string])%list).
Proof.
  do 5 (split; [reflexivity|]). split; [reflexivity|].
  destruct (C5_unused_and_total Sample.script Sample.w0 Sample.assets
              Sample.md_files Sample.liquid_files Sample.scss_files
              eq_refl eq_refl eq_refl eq_refl eq_refl eq_refl)
    as [used [unused [total [before (Hc & _ & _ & Htotal & Hmain)]]]].
  vm_compute in Hc. injection Hc as Hused Hunused.
  subst unused. vm_compute in Htotal. subst total.
  exists used, before. exact Hmain.
Defined.

(** ** Two runs over the same project *)

(** C6.  A run changes nothing in the project, and a second run over the
    project as the first one left it ends as the first did and prints the
    same report: the assets found, their classification with their
    references, the counts and the total of bytes are functions of the file
    system alone. *)
Theorem C6_same_project_same_report (file__ : Path) (w w1 w2 : world)
    (r1 r2 : result unit) :
  main file__ w = (r1, w1) ->
  main file__ w1 = (r2, w2) ->
  fs w1 = fs w /\ fs w2 = fs w /\ r2 = r1 /\
  (exists lines, stdout w1 = (stdout w ++ lines)%list /\
                 stdout w2 = (stdout w1 ++ lines)%list) /\
  (forall assets_dir,
     fst (find_all_assets assets_dir w1) = fst (find_all_assets assets_dir w)) /\
  (forall assets md_files liquid_files scss_files assets_dir,
     fst (classify assets md_files liquid_files scss_files assets_dir w1) =
     fst (classify assets md_files liquid_files scss_files assets_dir w)).
Proof.
  intros H1 H2. destruct (appends_main file__ (fs w)) as [r [lines Hr]].
  destruct w as [root out]. cbn [fs stdout] in *.
  rewrite Hr in H1. injection H1 as <- <-.
  rewrite Hr in H2. injection H2 as <- <-. cbn [fs stdout].
  do 3 (split; [reflexivity|]). split; [now exists lines|]. split.
  - intros d. destruct (silent_find_all_assets d root) as [r' Hr'].
    now rewrite !Hr'.
  - intros assets md_files liquid_files scss_files d.
    destruct (silent_classify assets md_files liquid_files scss_files d root)
      as [r' Hr'].
    now rewrite !Hr'.
Qed.

Lemma C6_same_project_same_report_witness :
  exists r1 w1 r2 w2,
    main Sample.script Sample.w0 = (r1, w1) /\
    main Sample.script w1 = (r2, w2) /\
    fs w2 = fs Sample.w0 /\ r2 = r1 /\
    exists lines, stdout w1 = lines /\ stdout w2 = (lines ++ lines)%list.
Proof.
  exists (fst (main Sample.script Sample.w0)), (snd (main Sample.script Sample.w0)).
  exists (fst (main Sample.script (snd (main Sample.script Sample.w0)))),
         (snd (main Sample.script (snd (main Sample.script Sample.w0)))).
  split; [apply surjective_pairing|]. split; [apply surjective_pairing|].
  destruct (C6_same_project_same_report Sample.script Sample.w0 _ _ _ _
              (surjective_pairing _) (surjective_pairing _))
    as (_ & Hfs & Hr & [lines [Hl1 Hl2]] & _).
  split; [exact Hfs|]. split; [exact Hr|].
  exists lines. split; [exact Hl1|]. rewrite Hl2, Hl1. reflexivity.
Defined.

(** ** Missing directories *)

Section Missing.

Variable w : world.
Variable root_dir : Path.

Lemma find_all_md_files_total :
  exists files, find_all_md_files root_dir w = (Ok files, w).
Proof. unfold find_all_md_files, bind, glob_star, ret. eexists. reflexivity. Qed.

Lemma glob_below_eq (sub ext : string) :
  glob_below root_dir sub ext w = (Ok (globbed (fs w) root_dir sub ext), w).
Proof. reflexivity. Qed.

Lemma find_all_liquid_files_eq :
  find_all_liquid_files root_dir w =
  (Ok (globbed (fs w) root_dir "_includes" ".liquid"
       ++ globbed (fs w) root_dir "_layouts" ".liquid")%list, w).
Proof. reflexivity. Qed.

Lemma find_all_scss_files_eq :
  find_all_scss_files root_dir w =
  (Ok (globbed (fs w) root_dir "_sass" ".scss"), w).
Proof. reflexivity. Qed.

Lemma globbed_absent (sub ext : string) :
  absent (fs w) (PathLib.child root_dir sub) ->
  globbed (fs w) root_dir sub ext = [].
Proof. unfold absent, globbed. now intros ->. Qed.

End Missing.

(** C7.  A directory of the project that is missing raises nothing.  With
    no assets directory no asset is found, and the run completes with the
    report of a project without assets.  The template category gets nothing
    from a missing [_includes] or [_layouts], and is empty when both are
    missing; the stylesheet category is empty when [_sass] is missing.  The
    checker then finds no reference in the empty category. *)
Theorem C7_missing_directories (file__ : Path) (w : world) :
  (absent (fs w) (PathLib.child (PathLib.parent file__) "assets") ->
   find_all_assets (PathLib.child (PathLib.parent file__) "assets") w = (Ok [], w) /\
   exists md_files liquid_files scss_files,
     main file__ w =
     (Ok tt, mkWorld (fs w)
        (stdout w ++
         report_text (PathLib.child (PathLib.parent file__) "assets") (fs w)
                     [] md_files liquid_files scss_files [] [])%list)) /\
  (absent (fs w) (PathLib.child (PathLib.parent file__) "_includes") ->
   absent (fs w) (PathLib.child (PathLib.parent file__) "_layouts") ->
   find_all_liquid_files (PathLib.parent file__) w = (Ok [], w)) /\
  (absent (fs w) (PathLib.child (PathLib.parent file__) "_includes") ->
   find_all_liquid_files (PathLib.parent file__) w =
   glob_below (PathLib.parent file__) "_layouts" ".liquid" w) /\
  (absent (fs w) (PathLib.child (PathLib.parent file__) "_layouts") ->
   find_all_liquid_files (PathLib.parent file__) w =
   glob_below (PathLib.parent file__) "_includes" ".liquid" w) /\
  (absent (fs w) (PathLib.child (PathLib.parent file__) "_sass") ->
   find_all_scss_files (PathLib.parent file__) w = (Ok [], w)) /\
  (forall asset md_files liquid_files scss_files assets_dir patterns,
     build_patterns asset assets_dir = Ok patterns ->
     all_readable (fs w) (md_files ++ liquid_files ++ scss_files)%list = true ->
     exists refs,
       check_asset_usage asset md_files liquid_files scss_files assets_dir w
         = (Ok refs, w) /\
       (liquid_files = [] -> liquid refs = []) /\
       (scss_files = [] -> scss refs = [])).
Proof.
  split; [|split; [|split; [|split; [|split]]]].
  - intros Habs.
    assert (Hfa : find_all_assets (PathLib.child (PathLib.parent file__) "assets") w
                  = (Ok [], w)).
    { rewrite find_all_assets_eq. unfold absent in Habs. now rewrite Habs. }
    split; [exact Hfa|].
    destruct (find_all_md_files_total w (PathLib.parent file__)) as [md_files Hmd].
    exists md_files, (globbed (fs w) (PathLib.parent file__) "_includes" ".liquid"
                      ++ globbed (fs w) (PathLib.parent file__) "_layouts" ".liquid")%list,
           (globbed (fs w) (PathLib.parent file__) "_sass" ".scss").
    apply (run_main_with file__ w [] _ _ _ Hfa Hmd
             (find_all_liquid_files_eq w _) (find_all_scss_files_eq w _) [] []
             eq_refl (Forall_nil _) (Forall_nil _)).
  - intros Hi Hl. rewrite find_all_liquid_files_eq.
    now rewrite (globbed_absent _ _ _ _ Hi), (globbed_absent _ _ _ _ Hl).
  - intros Hi. rewrite find_all_liquid_files_eq, glob_below_eq.
    now rewrite (globbed_absent _ _ _ _ Hi).
  - intros Hl. rewrite find_all_liquid_files_eq, glob_below_eq.
    now rewrite (globbed_absent _ _ _ _ Hl), app_nil_r.
  - intros Hs. rewrite find_all_scss_files_eq.
    now rewrite (globbed_absent _ _ _ _ Hs).
  - intros asset md_files liquid_files scss_files assets_dir patterns Hp Hread.
    apply all_readable_Forall in Hread.
    exists (refs_of patterns (fs w) md_files liquid_files scss_files).
    split; [now apply check_asset_usage_ok|].
    split; intros ->; reflexivity.
Qed.

Lemma C7_missing_directories_witness :
  absent (fs Bare.w0) (PathLib.child (PathLib.parent Sample.script) "assets") /\
  absent (fs Bare.w0) (PathLib.child (PathLib.parent Sample.script) "_includes") /\
  absent (fs Bare.w0) (PathLib.child (PathLib.parent Sample.script) "_layouts") /\
  absent (fs Bare.w0) (PathLib.child (PathLib.parent Sample.script) "_sass") /\
  find_all_assets (PathLib.child (PathLib.parent Sample.script) "assets") Bare.w0
    = (Ok [], Bare.w0) /\
  find_all_liquid_files (PathLib.parent Sample.script) Bare.w0 = (Ok [], Bare.w0) /\
  find_all_scss_files (PathLib.parent Sample.script) Bare.w0 = (Ok [], Bare.w0) /\
  fst (main Sample.script Bare.w0) = Ok tt.
Proof.
  destruct (C7_missing_directories Sample.script Bare.w0)
    as (Ha & Hli & _ & _ & Hsc & _).
  do 4 (split; [reflexivity|]).
  destruct (Ha eq_refl) as [Hfa [md_files [liquid_files [scss_files Hmain]]]].
  split; [exact Hfa|]. split; [exact (Hli eq_refl eq_refl)|].
  split; [exact (Hsc eq_refl)|]. now rewrite Hmain.
Defined.

(** ** Decoding *)

Section Decoding.

Import Codec.












End Decoding.

(** ** Files that cannot be read *)

Section Unreadable.

Variables (asset assets_dir : Path) (patterns : list string) (w : world).
Hypothesis built : build_patterns asset assets_dir = Ok patterns.






End Unreadable.

Section RunEnds.

Variable assets_dir : Path.
Variables md_files liquid_files scss_files : list Path.
Variables (before after : list Path) (f : Path) (e : exn).


End RunEnds.





(** ** Letter case *)

Lemma filter_without {A} (p : A -> bool) (before after : list A) (f : A) :
  p f = false ->
  filter p (before ++ f :: after)%list = filter p (before ++ after)%list.
Proof.
  intros Hf. rewrite !filter_app. simpl. now rewrite Hf.
Qed.

(** C9.  Patterns are matched in the case they are written in.  A source
    file whose text holds a pattern of the asset in another letter case
    only, and no pattern as it is, gets no entry: the references of the
    asset are those found without the file, in whichever category the file
    is, and an asset with no other source file is classified as unused. *)
Theorem C9_case_sensitive (asset assets_dir : Path)
    (md_files liquid_files scss_files : list Path) (f : Path) (w : world)
    (patterns : list string) (text pattern variant : string) :
  build_patterns asset assets_dir = Ok patterns ->
  all_readable (fs w) (md_files ++ liquid_files ++ scss_files)%list = true ->
  text_of (fs w) f = Ok text ->
  In pattern patterns ->
  Str.lower variant = Str.lower pattern -> variant <> pattern ->
  Str.str_in variant text = true ->
  (forall p, In p patterns -> Str.str_in p text = false) ->
  (forall before after, md_files = (before ++ after)%list ->
     check_asset_usage asset (before ++ f :: after)%list liquid_files scss_files
                       assets_dir w
     = check_asset_usage asset md_files liquid_files scss_files assets_dir w) /\
  (forall before after, liquid_files = (before ++ after)%list ->
     check_asset_usage asset md_files (before ++ f :: after)%list scss_files
                       assets_dir w
     = check_asset_usage asset md_files liquid_files scss_files assets_dir w) /\
  (forall before after, scss_files = (before ++ after)%list ->
     check_asset_usage asset md_files liquid_files (before ++ f :: after)%list
                       assets_dir w
     = check_asset_usage asset md_files liquid_files scss_files assets_dir w) /\
  classify [asset] [f] [] [] assets_dir w = (Ok ([], [asset]), w) /\
  classify [asset] [] [f] [] assets_dir w = (Ok ([], [asset]), w) /\
  classify [asset] [] [] [f] assets_dir w = (Ok ([], [asset]), w).
Proof.
  intros Hp Hread Htext _ _ _ _ Hnone.
  apply all_readable_Forall in Hread.
  assert (Hf : readable (fs w) f) by now exists text.
  assert (Hhit : hit patterns (fs w) f = false).
  { unfold hit. rewrite (content_text _ _ _ Htext).
    now apply contains_any_false. }
  apply Forall_app in Hread as [Hmd Hread].
  apply Forall_app in Hread as [Hli Hsc].
  assert (Hall : Forall (readable (fs w)) (md_files ++ liquid_files ++ scss_files)%list)
    by (rewrite !Forall_app; auto).
  rewrite (check_asset_usage_ok _ _ _ _ _ _ _ Hp Hall).
  assert (Hone : forall md_files' liquid_files' scss_files',
            Forall (readable (fs w)) (md_files' ++ liquid_files' ++ scss_files')%list ->
            refs_of patterns (fs w) md_files' liquid_files' scss_files'
              = mkReferences [] [] [] ->
            classify [asset] md_files' liquid_files' scss_files' assets_dir w
              = (Ok ([], [asset]), w)).
  { intros m l s Hr Hrefs.
    rewrite (classify_ok _ _ _ _ _ Hr [asset])
      by (constructor; [now exists patterns | constructor]).
    change (sorted [asset]) with [asset]. cbn [filter].
    unfold is_used, asset_refs, patterns_of. rewrite Hp, Hrefs. reflexivity. }
  split; [|split; [|split; [|split; [|split]]]].
  - intros before after ->. apply Forall_app in Hmd as [Hb Ha].
    rewrite (check_asset_usage_ok _ _ _ _ _ _ _ Hp)
      by (rewrite !Forall_app; auto).
    unfold refs_of. now rewrite (filter_without _ _ _ _ Hhit).
  - intros before after ->. apply Forall_app in Hli as [Hb Ha].
    rewrite (check_asset_usage_ok _ _ _ _ _ _ _ Hp)
      by (rewrite !Forall_app; auto).
    unfold refs_of. now rewrite (filter_without _ _ _ _ Hhit).
  - intros before after ->. apply Forall_app in Hsc as [Hb Ha].
    rewrite (check_asset_usage_ok _ _ _ _ _ _ _ Hp)
      by (rewrite !Forall_app; auto).
    unfold refs_of. now rewrite (filter_without _ _ _ _ Hhit).
  - apply Hone; [repeat constructor; exact Hf|].
    unfold refs_of. cbn [filter]. now rewrite Hhit.
  - apply Hone; [repeat constructor; exact Hf|].
    unfold refs_of. cbn [filter]. now rewrite Hhit.
  - apply Hone; [repeat constructor; exact Hf|].
    unfold refs_of. cbn [filter]. now rewrite Hhit.
Qed.

Lemma C9_case_sensitive_witness :
  build_patterns Sample.logo Sample.assets_dir
    = Ok ["assets/img/logo.png"; "/assets/img/logo.png"; "logo.png"; "logo"] /\
  text_of (fs Cased.w0) Sample.index_md = Ok "![Logo](assets/img/LOGO.PNG)" /\
  Str.lower "LOGO.PNG" = Str.lower "logo.png" /\
  Str.str_in "LOGO.PNG" "![Logo](assets/img/LOGO.PNG)" = true /\
  classify [Sample.logo] [Sample.index_md] [] [] Sample.assets_dir Cased.w0
    = (Ok ([], [Sample.logo]), Cased.w0).
Proof.
  do 4 (split; [reflexivity|]).
  apply (C9_case_sensitive Sample.logo Sample.assets_dir [] [] []
           Sample.index_md Cased.w0 _ "![Logo](assets/img/LOGO.PNG)"
           "logo.png" "LOGO.PNG" eq_refl eq_refl eq_refl).
  - simpl. auto.
  - reflexivity.
  - discriminate.
  - reflexivity.
  - intros p Hin. simpl in Hin.
    destruct Hin as [<- | [<- | [<- | [<- | []]]]]; reflexivity.
Defined.

(** ** The path patterns change nothing *)

Section NameAlone.

Lemma bind_ext {A B} (m1 m2 : M A) (k1 k2 : A -> M B) (w : world) :
  m1 w = m2 w -> (forall a w', k1 a w' = k2 a w') ->
  bind m1 k1 w = bind m2 k2 w.
Proof.
  intros Hm Hk. unfold bind. rewrite Hm.
  destruct (m2 w) as [[a|e] w']; [apply Hk | reflexivity].
Qed.

Lemma for_ext {A S} (xs : list A) (body1 body2 : A -> S -> M S) :
  (forall x, In x xs -> forall s w, body1 x s w = body2 x s w) ->
  forall s w, for_ xs body1 s w = for_ xs body2 s w.
Proof.
  induction xs as [|x xs IH]; intros Hbody s w; [reflexivity|].
  simpl. apply bind_ext.
  - apply Hbody. now left.
  - intros s' w'. apply IH. intros y Hy. apply Hbody. now right.
Qed.

Variables assets_dir asset : Path.
Hypothesis asset_below : below assets_dir asset.

(** Some pattern of the asset occurs in a text exactly when the shortest
    one does: it is part of all the others. *)
Lemma contains_any_by_name (patterns : list string) (text : string) :
  build_patterns asset assets_dir = Ok patterns ->
  contains_any patterns text = Str.str_in (ByName.pattern asset) text.
Proof.
  destruct (below_relative _ _ asset_below) as [rel (Hrel & _ & Hname)].
  rewrite (build_patterns_eq _ _ _ Hrel). intros [= <-].
  pose proof (stem_in_name asset) as Hstem.
  unfold ByName.pattern.
  assert (Hslash : Str.str_in (PathLib.name asset) ("/" ++ PathLib.str rel) = true)
    by now apply str_in_append_l.
  change ("/" ++ PathLib.str rel) with (String "/" (PathLib.str rel)) in *.
  unfold contains_any.
  destruct (is_image asset); cbn [app existsb].
  - destruct (Str.str_in (PathLib.stem asset) text) eqn:E.
    + now rewrite !orb_true_r.
    + pose proof (str_in_false_mono _ _ _ Hstem E) as En.
      rewrite (str_in_false_mono _ _ _ Hname En).
      rewrite (str_in_false_mono _ _ _ Hslash En), En. reflexivity.
  - destruct (Str.str_in (PathLib.name asset) text) eqn:E.
    + now rewrite !orb_true_r.
    + rewrite (str_in_false_mono _ _ _ Hname E).
      rewrite (str_in_false_mono _ _ _ Hslash E). reflexivity.
Qed.

Lemma check_asset_usage_by_name (md_files liquid_files scss_files : list Path)
    (w : world) :
  check_asset_usage asset md_files liquid_files scss_files assets_dir w =
  ByName.check_asset_usage asset md_files liquid_files scss_files w.
Proof.
  destruct (below_has_patterns _ _ asset_below) as [patterns Hp].
  unfold check_asset_usage, ByName.check_asset_usage.
  rewrite (bind_ok _ _ w w patterns) by (unfold lift; now rewrite Hp).
  apply bind_ext.
  { apply for_ext. intros f _ refs w1. apply bind_ext; [reflexivity|].
    intros text w2. now rewrite scan_eq, (contains_any_by_name _ _ Hp). }
  intros refs1 w1. apply bind_ext.
  { apply for_ext. intros f _ refs w2. apply bind_ext; [reflexivity|].
    intros text w3. now rewrite scan_eq, (contains_any_by_name _ _ Hp). }
  intros refs2 w2. apply bind_ext; [|reflexivity].
  apply for_ext. intros f _ refs w3. apply bind_ext; [reflexivity|].
  intros text w4. now rewrite scan_eq, (contains_any_by_name _ _ Hp).
Qed.

End NameAlone.

(** C10.  For the assets found under the assets directory, searching all
    of an asset's patterns and searching its file name alone (its stem
    alone, for an asset with an image extension) are the same computation:
    the file name is part of both path patterns and the stem is part of
    the file name.  The checker returns the same reference lists, or fails
    in the same way, and the classification sorts the assets into the same
    lists, whatever the source files contain. *)
Theorem C10_name_alone_decides (assets_dir : Path) (w0 : world)
    (assets : list Path) :
  find_all_assets assets_dir w0 = (Ok assets, w0) ->
  (forall asset text patterns,
     In asset assets -> build_patterns asset assets_dir = Ok patterns ->
     existsb (fun pattern => Str.str_in pattern text) patterns
     = Str.str_in (if is_image asset then PathLib.stem asset
                   else PathLib.name asset) text) /\
  (forall asset md_files liquid_files scss_files w,
     In asset assets ->
     check_asset_usage asset md_files liquid_files scss_files assets_dir w
     = ByName.check_asset_usage asset md_files liquid_files scss_files w) /\
  (forall md_files liquid_files scss_files w,
     classify assets md_files liquid_files scss_files assets_dir w
     = ByName.classify assets md_files liquid_files scss_files w).
Proof.
  intros Hfind.
  pose proof (proj1 (Forall_forall _ _) (enumerated_below _ _ _ Hfind)) as Hb.
  split; [|split].
  - intros asset text patterns Hin Hp.
    exact (contains_any_by_name _ _ (Hb _ Hin) _ _ Hp).
  - intros asset md_files liquid_files scss_files w Hin.
    now apply check_asset_usage_by_name, Hb.
  - intros md_files liquid_files scss_files w.
    unfold classify, ByName.classify. apply for_ext.
    intros asset Hin [used unused] w1. apply bind_ext; [|reflexivity].
    apply check_asset_usage_by_name, Hb. now apply sorted_in.
Qed.

Lemma C10_name_alone_decides_witness :
  find_all_assets Sample.assets_dir Sample.w0 = (Ok Sample.assets, Sample.w0) /\
  classify Sample.assets Sample.md_files Sample.liquid_files Sample.scss_files
           Sample.assets_dir Sample.w0
  = ByName.classify Sample.assets Sample.md_files Sample.liquid_files
                    Sample.scss_files Sample.w0.
Proof.
  split; [reflexivity|].
  exact (proj2 (proj2 (C10_name_alone_decides Sample.assets_dir Sample.w0
                         Sample.assets eq_refl))
           Sample.md_files Sample.liquid_files Sample.scss_files Sample.w0).
Defined.

(** ** The model at work *)

Section Examples.

Example suffix_of_archive :
  PathLib.suffix (mkPath false ["a"; "archive.tar.gz"]) = ".gz" /\
  PathLib.stem (mkPath false ["a"; "archive.tar.gz"]) = "archive.tar".
Proof. split; reflexivity. Qed.

Example suffix_of_hidden :
  PathLib.suffix (mkPath false [".bashrc"]) = "" /\
  PathLib.stem (mkPath false [".bashrc"]) = ".bashrc" /\
  PathLib.suffix (mkPath false ["trailing."]) = "".
Proof. repeat split; reflexivity. Qed.

Example image_suffix_any_case :
  is_image (mkPath false ["Photo.JPeG"]) = true /\
  is_image (mkPath false ["notes.txt"]) = false /\
  is_image (mkPath false ["png"]) = false.
Proof. repeat split; reflexivity. Qed.

Example format_commas_groups :
  format_commas 0 = "0" /\ format_commas 999 = "999" /\
  format_commas 1000 = "1,000" /\ format_commas 4096 = "4,096".
Proof. repeat split; reflexivity. Qed.

Example sorted_is_stable_and_ordered :
  sorted [mkPath true ["s"; "b"]; mkPath true ["s"; "a"; "z"]; mkPath true ["s"; "a"]]
  = [mkPath true ["s"; "a"]; mkPath true ["s"; "a"; "z"]; mkPath true ["s"; "b"]].
Proof. reflexivity. Qed.

(** The bytes E4 BD (a sequence cut short by the letter A) and FF are
    dropped; the two-byte sequence C3 A9 is kept. *)
Example decode_drops_ill_formed :
  Codec.decode_ignore
    (String (ascii_of_nat 228) (String (ascii_of_nat 189)
      (String "A" (String (ascii_of_nat 255)
        (String (ascii_of_nat 195) (String (ascii_of_nat 169) ""))))))
  = String "A" (String (ascii_of_nat 195) (String (ascii_of_nat 169) "")).
Proof. reflexivity. Qed.

Example newlines_translated :
  Codec.universal_newlines
    (String "a" (String Codec.CR (String Codec.LF (String "b" (String Codec.CR "c")))))
  = String "a" (String Codec.LF (String "b" (String Codec.LF "c"))).
Proof. reflexivity. Qed.

(** Opening a path that runs through a regular file, and one whose last
    entry is missing. *)
Example errors_of_paths_that_lead_nowhere :
  text_of Sample.project (mkPath true ["site"; "index.md"; "x"])
    = Raise NotADirectoryError /\
  text_of Sample.project (mkPath true ["site"; "missing.md"])
    = Raise FileNotFoundError.
Proof. split; reflexivity. Qed.

(** A stylesheet that names an asset by its file name only: the asset is
    used through the stylesheets, not through markdown or templates. *)
Example hero_used_by_stylesheet :
  check_asset_usage Sample.hero Sample.md_files Sample.liquid_files
                    Sample.scss_files Sample.assets_dir Sample.w0
  = (Ok (mkReferences [] [] ["_sass/main.scss"]), Sample.w0).
Proof. reflexivity. Qed.

(** An asset no source names is unused. *)
Example logo_2x_unused :
  check_asset_usage Sample.logo_2x Sample.md_files Sample.liquid_files
                    Sample.scss_files Sample.assets_dir Sample.w0
  = (Ok (mkReferences [] [] []), Sample.w0).
Proof. reflexivity. Qed.

(** The report of the sample project. *)
Example sample_report :
  main Sample.script Sample.w0 =
  (Ok tt, mkWorld Sample.project
     [("Scanning for assets and references..." ++ nl)%string;
      "Found 4 assets";
      "Found 2 markdown files";
      "Found 2 liquid templates";
      ("Found 1 scss files" ++ nl)%string;
      bar; "USED ASSETS"; bar;
      "  fonts.css"; "    -> liquid: _includes/head.liquid";
      "  img/hero.jpg"; "    -> scss: _sass/main.scss";
      "  img/logo.png"; "    -> md: index.md";
      (nl ++ bar)%string; "UNUSED ASSETS (not referenced anywhere)"; bar;
      "  img/logo-2x.png (10 bytes)";
      (nl ++ "Total unused: 1 files, 10 bytes")%string;
      "Total used: 3 files"]).
Proof. vm_compute. reflexivity. Qed.

End Examples.

(** * Further properties *)

(** ** The order of the report *)

Section Order.

Lemma str_ltb_lt (a b : string) :
  Str.ltb a b = true <-> String.compare a b = Lt.
Proof.
  unfold Str.ltb, String.ltb. destruct (String.compare a b); split; congruence.
Qed.

Lemma str_ltb_irrefl (a : string) : Str.ltb a a = false.
Proof.
  destruct (Str.ltb a a) eqn:E; [|reflexivity].
  apply str_ltb_lt in E.
  pose proof (proj2 (String_as_OT.cmp_eq a a) eq_refl) as H.
  unfold String_as_OT.cmp in H. congruence.
Qed.

Lemma str_ltb_trans (a b c : string) :
  Str.ltb a b = true -> Str.ltb b c = true -> Str.ltb a c = true.
Proof.
  rewrite !str_ltb_lt. intros Hab Hbc.
  apply String_as_OT.cmp_lt in Hab. apply String_as_OT.cmp_lt in Hbc.
  apply String_as_OT.cmp_lt. exact (String_as_OT.lt_trans _ _ _ Hab Hbc).
Qed.

Lemma str_ltb_total (a b : string) :
  Str.ltb a b = false -> Str.ltb b a = false -> a = b.
Proof.
  unfold Str.ltb, String.ltb. rewrite (String.compare_antisym b a).
  destruct (String.compare a b) eqn:E; simpl; intros H1 H2;
    try discriminate.
  now apply String.compare_eq_iff.
Qed.

Lemma list_ltb_irrefl (a : list string) : PathLib.list_ltb a a = false.
Proof.
  induction a as [|x a IH]; [reflexivity|]. simpl. now rewrite String.eqb_refl.
Qed.

Lemma list_ltb_trans (a b c : list string) :
  PathLib.list_ltb a b = true -> PathLib.list_ltb b c = true ->
  PathLib.list_ltb a c = true.
Proof.
  revert b c. induction a as [|x a IH]; intros [|y b] [|z c]; simpl;
    try discriminate; try reflexivity.
  destruct (String.eqb_spec x y) as [->|Hxy].
  - destruct (String.eqb_spec y z) as [->|Hyz]; [apply IH | auto].
  - destruct (String.eqb_spec y z) as [->|Hyz].
    + destruct (String.eqb_spec x z); [congruence | auto].
    + intros Hlt1 Hlt2. pose proof (str_ltb_trans _ _ _ Hlt1 Hlt2) as Hlt.
      destruct (String.eqb_spec x z) as [->|Hxz]; [|exact Hlt].
      now rewrite str_ltb_irrefl in Hlt.
Qed.

Lemma list_ltb_total (a b : list string) :
  PathLib.list_ltb a b = false -> PathLib.list_ltb b a = false -> a = b.
Proof.
  revert b. induction a as [|x a IH]; intros [|y b]; simpl;
    try discriminate; try reflexivity.
  rewrite (String.eqb_sym y x).
  destruct (String.eqb_spec x y) as [->|Hxy].
  - intros H1 H2. f_equal. now apply IH.
  - intros H1 H2. destruct Hxy. now apply str_ltb_total.
Qed.

Lemma path_le_refl (a : Path) : path_le a a.
Proof. apply list_ltb_irrefl. Qed.

Lemma path_lt_le (a b : Path) : PathLib.ltb a b = true -> path_le a b.
Proof.
  unfold path_le, PathLib.ltb. intros Hab.
  destruct (PathLib.list_ltb (PathLib.cparts b) (PathLib.cparts a)) eqn:Hba;
    [|reflexivity].
  pose proof (list_ltb_trans _ _ _ Hab Hba) as H.
  now rewrite list_ltb_irrefl in H.
Qed.

Lemma path_le_trans (a b c : Path) : path_le a b -> path_le b c -> path_le a c.
Proof.
  unfold path_le, PathLib.ltb. intros Hba Hcb.
  destruct (PathLib.list_ltb (PathLib.cparts c) (PathLib.cparts a)) eqn:Hca;
    [|reflexivity].
  destruct (PathLib.list_ltb (PathLib.cparts a) (PathLib.cparts b)) eqn:Hab.
  - pose proof (list_ltb_trans _ _ _ Hca Hab) as H. congruence.
  - rewrite (list_ltb_total _ _ Hab Hba) in Hca. congruence.
Qed.

Lemma insert_sorted (p : Path) (l : list Path) :
  StronglySorted path_le l -> StronglySorted path_le (insert p l).
Proof.
  induction l as [|q l IH]; intros Hs; simpl.
  - constructor; constructor.
  - apply StronglySorted_inv in Hs as [Hl Hq].
    destruct (PathLib.ltb p q) eqn:Hpq.
    + constructor; [now constructor|]. constructor; [now apply path_lt_le|].
      eapply Forall_impl; [|exact Hq]. intros r Hr.
      exact (path_le_trans _ _ _ (path_lt_le _ _ Hpq) Hr).
    + constructor; [now apply IH|].
      apply Forall_forall. intros r Hr.
      apply (Permutation_in _ (insert_perm p l)) in Hr as [<- | Hr].
      * exact Hpq.
      * exact (proj1 (Forall_forall _ _) Hq r Hr).
Qed.

Lemma sorted_sorted (l : list Path) : StronglySorted path_le (sorted l).
Proof.
  unfold sorted.
  assert (H : forall acc, StronglySorted path_le acc ->
              StronglySorted path_le (fold_left (fun acc p => insert p acc) l acc)).
  { induction l as [|p l IH]; intros acc Hacc; simpl; [exact Hacc|].
    apply IH. now apply insert_sorted. }
  apply H. constructor.
Qed.

Lemma filter_sorted (f : Path -> bool) (l : list Path) :
  StronglySorted path_le l -> StronglySorted path_le (filter f l).
Proof.
  induction l as [|a l IH]; intros Hs; simpl; [constructor|].
  apply StronglySorted_inv in Hs as [Hl Ha].
  destruct (f a); [|now apply IH].
  constructor; [now apply IH|].
  apply Forall_forall. intros r Hr. apply filter_In in Hr as [Hr _].
  exact (proj1 (Forall_forall _ _) Ha r Hr).
Qed.

End Order.

(** X1.  The report lists the assets in ascending order of their paths: in
    [used_assets] as in [unused_assets], no asset comes before one that
    is smaller in the order of paths. *)
Theorem X1_report_in_path_order (assets_dir : Path) (w : world)
    (assets md_files liquid_files scss_files : list Path) :
  find_all_assets assets_dir w = (Ok assets, w) ->
  all_readable (fs w) (md_files ++ liquid_files ++ scss_files)%list = true ->
  exists used_assets unused_assets,
    classify assets md_files liquid_files scss_files assets_dir w
      = (Ok (used_assets, unused_assets), w) /\
    StronglySorted (fun a b => PathLib.ltb b a = false) (map fst used_assets) /\
    StronglySorted (fun a b => PathLib.ltb b a = false) unused_assets.
Proof.
  intros Hfind Hread. apply all_readable_Forall in Hread.
  pose proof (enumerated_has_patterns _ _ _ Hfind) as Hpat.
  do 2 eexists. split; [apply (classify_ok _ _ _ _ _ Hread _ Hpat)|].
  split.
  - rewrite map_map. cbn [fst]. rewrite map_id.
    apply filter_sorted, sorted_sorted.
  - apply filter_sorted, sorted_sorted.
Qed.

Lemma X1_report_in_path_order_witness :
  find_all_assets Sample.assets_dir Sample.w0 = (Ok Sample.assets, Sample.w0) /\
  all_readable (fs Sample.w0)
    (Sample.md_files ++ Sample.liquid_files ++ Sample.scss_files)%list = true /\
  exists used_assets unused_assets,
    classify Sample.assets Sample.md_files Sample.liquid_files Sample.scss_files
             Sample.assets_dir Sample.w0
      = (Ok (used_assets, unused_assets), Sample.w0) /\
    StronglySorted (fun a b => PathLib.ltb b a = false) (map fst used_assets).
Proof.
  split; [reflexivity|]. split; [reflexivity|].
  destruct (X1_report_in_path_order Sample.assets_dir Sample.w0 Sample.assets
              Sample.md_files Sample.liquid_files Sample.scss_files
              eq_refl eq_refl) as [used [unused (Hc & Hs & _)]].
  exists used, unused. split; assumption.
Defined.

(** ** What the enumerators find *)

Section Enumerators.

Lemma flat_map_flat_map {A B C} (g : B -> list C) (h : A -> list B) (l : list A) :
  flat_map g (flat_map h l) = flat_map (fun a => flat_map g (h a)) l.
Proof.
  induction l as [|a l IH]; [reflexivity|].
  simpl. now rewrite flat_map_app, IH.
Qed.

Lemma assets_under_dir (top : Path) (entries : list (string * node)) :
  assets_under top (Dir entries) =
  (map (PathLib.child top) (FS.nondirs entries) ++
   flat_map (fun e => assets_under (PathLib.child top (fst e)) (snd e)) entries)%list.
Proof.
  unfold assets_under. cbn [FS.os_walk flat_map].
  now rewrite flat_map_flat_map.
Qed.

Lemma lookup_app_inv (root m : node) (ps qs : list string) :
  FS.lookup root (ps ++ qs) = Some m ->
  exists n, FS.lookup root ps = Some n /\ FS.lookup n qs = Some m.
Proof.
  revert root; induction ps as [|p ps IH]; intros root; simpl.
  - intros H. now exists root.
  - destruct root as [|entries]; [discriminate|].
    destruct (FS.find_entry p entries); [apply IH | discriminate].
Qed.

(** Every file below a directory is among its assets. *)
Lemma assets_under_complete (rest : list string) :
  forall (n : node) (top : Path) r d,
  rest <> [] -> FS.lookup n rest = Some (File r d) ->
  In (mkPath (absolute top) (parts top ++ rest)) (assets_under top n).
Proof.
  induction rest as [|name rest IH]; intros n top r d Hne Hl; [congruence|].
  simpl in Hl. destruct n as [|entries]; [discriminate|].
  destruct (FS.find_entry name entries) as [c|] eqn:Hf; [|discriminate].
  apply find_entry_in in Hf. rewrite assets_under_dir. apply in_or_app.
  destruct rest as [|name' rest].
  - injection Hl as ->. left. apply in_map_iff. exists name.
    split; [reflexivity|]. apply in_nondirs. now exists r, d.
  - right. apply in_flat_map. exists (name, c). split; [exact Hf|].
    specialize (IH c (PathLib.child top name) r d).
    cbn [fst snd PathLib.child absolute parts] in *.
    rewrite <- app_assoc in IH. apply IH; [discriminate | exact Hl].
Qed.

Lemma child_parts_inj (top : Path) (a b : string) :
  PathLib.child top a = PathLib.child top b -> a = b.
Proof.
  unfold PathLib.child. intros [= H]. apply app_inv_head in H. congruence.
Qed.

Lemma nondirs_incl (entries : list (string * node)) (name : string) :
  In name (FS.nondirs entries) -> In name (map fst entries).
Proof.
  unfold FS.nondirs. rewrite !in_map_iff. intros [e [He Hin]].
  apply filter_In in Hin as [Hin _]. now exists e.
Qed.

Lemma nondirs_nodup (entries : list (string * node)) :
  FS.unique_names (Dir entries) = true -> NoDup (FS.nondirs entries).
Proof.
  induction entries as [|e rest IH]; intros Hu; [constructor|].
  rewrite unique_names_cons in Hu.
  apply andb_true_iff in Hu as [Hu Hrest].
  apply andb_true_iff in Hu as [Hfresh _]. apply negb_true_iff in Hfresh.
  unfold FS.nondirs. cbn [filter].
  destruct (negb (FS.is_dir (snd e))); [|now apply IH].
  cbn [map]. constructor; [|now apply IH].
  intros Hin. apply nondirs_incl, mem_in in Hin. congruence.
Qed.

(** Under a tree without repeated names no asset is found twice. *)
Lemma assets_under_nodup (n : node) : forall top,
  FS.unique_names n = true -> NoDup (assets_under top n).
Proof.
  induction n as [r d | entries IH] using node_rect'; intros top Hu.
  - constructor.
  - rewrite assets_under_dir. apply NoDup_app.
    + apply Finite.Injective_map_NoDup; [|now apply nondirs_nodup].
      intros a b. apply child_parts_inj.
    + clear - IH Hu. induction entries as [|e rest IHrest]; [constructor|].
      apply Forall_cons_iff in IH as [IHe IHr].
      rewrite unique_names_cons in Hu.
      apply andb_true_iff in Hu as [Hu Hrest].
      apply andb_true_iff in Hu as [Hfresh Hue]. apply negb_true_iff in Hfresh.
      cbn [flat_map]. apply NoDup_app; [now apply IHe | now apply IHrest |].
      intros a Ha Hb. apply in_flat_map in Hb as [e' [He' Hb]].
      destruct (assets_under_spec _ _ _ Ha) as [_ [r1 (_ & H1 & _)]].
      destruct (assets_under_spec _ _ _ Hb) as [_ [r2 (_ & H2 & _)]].
      rewrite H1 in H2. cbn [PathLib.child parts] in H2.
      rewrite <- !app_assoc in H2. apply app_inv_head in H2.
      injection H2 as Hname _.
      assert (Hm : Str.mem (fst e) (map fst rest) = true).
      { apply mem_in. rewrite Hname. now apply in_map. }
      congruence.
    + intros a Ha Hb. apply in_map_iff in Ha as [name [<- _]].
      apply in_flat_map in Hb as [e [_ Hb]].
      destruct (assets_under_spec _ _ _ Hb) as [_ [rest (Hne & Hp & _)]].
      cbn [PathLib.child parts] in Hp. rewrite <- app_assoc in Hp.
      apply app_inv_head in Hp. injection Hp as _ Hp.
      destruct rest; [congruence | discriminate].
Qed.

End Enumerators.

Lemma valid_names_cons (e : string * node) (rest : list (string * node)) :
  FS.valid_names (Dir (e :: rest)) =
  FS.valid_name (fst e) && FS.valid_names (snd e) && FS.valid_names (Dir rest).
Proof. reflexivity. Qed.

Lemma valid_names_entry (entries : list (string * node)) (e : string * node) :
  FS.valid_names (Dir entries) = true -> In e entries ->
  FS.valid_name (fst e) = true /\ FS.valid_names (snd e) = true.
Proof.
  induction entries as [|e0 rest IH]; intros Hv Hin; [contradiction|].
  rewrite valid_names_cons in Hv.
  apply andb_true_iff in Hv as [Hv Hrest].
  apply andb_true_iff in Hv as [Hname Hsub].
  destruct Hin as [<- | Hin]; [now split | now apply IH].
Qed.

(** In a tree of valid names, a path that leads somewhere is made of names
    a directory can list: none of its components is [..]. *)
Lemma lookup_valid (ps : list string) : forall (root n : node),
  FS.valid_names root = true -> FS.lookup root ps = Some n ->
  Forall (fun c => FS.valid_name c = true) ps.
Proof.
  induction ps as [|c ps IH]; intros root n Hv Hl; [constructor|].
  simpl in Hl. destruct root as [|entries]; [discriminate|].
  destruct (FS.find_entry c entries) as [child|] eqn:Hf; [|discriminate].
  apply find_entry_in in Hf.
  destruct (valid_names_entry _ _ Hv Hf) as [Hc Hchild].
  constructor; [exact Hc | exact (IH _ _ Hchild Hl)].
Qed.

Lemma valid_no_dotdot (ps : list string) :
  Forall (fun c => FS.valid_name c = true) ps -> ~ In ".." ps.
Proof.
  intros Hall Hin. apply (proj1 (Forall_forall _ _) Hall) in Hin. discriminate.
Qed.

(** X2.  In a tree of valid names, none listed twice in a directory, and
    for an assets directory whose path has no [..] component, the assets
    found are exactly the files below the assets directory, at any depth
    and whatever their names: a path is found when it extends the path of
    the assets directory by components other than [..] and leads to a
    file, and only then. *)
Theorem X2_assets_are_the_files_below (assets_dir : Path) (w : world)
    (assets : list Path) :
  FS.unique_names (fs w) = true ->
  FS.valid_names (fs w) = true ->
  ~ In ".." (parts assets_dir) ->
  find_all_assets assets_dir w = (Ok assets, w) ->
  forall p,
    In p assets <->
    absolute p = absolute assets_dir /\
    exists rest r d,
      rest <> [] /\ ~ In ".." rest /\
      parts p = (parts assets_dir ++ rest)%list /\
      FS.lookup (fs w) (parts p) = Some (File r d).
Proof.
  intros Hu Hv _ Hfind p. split.
  - intros Hin.
    destruct (find_all_assets_spec _ _ _ _ Hfind Hin) as [Habs [rest (Hne & Hp & Hf)]].
    split; [exact Habs|]. destruct (Hf Hu) as (r & d & Hl).
    exists rest, r, d. repeat split; try assumption.
    intros Hdd. apply (valid_no_dotdot _ (lookup_valid _ _ _ Hv Hl)).
    rewrite Hp. apply in_or_app. now right.
  - intros [Habs (rest & r & d & Hne & _ & Hp & Hl)].
    rewrite find_all_assets_eq in Hfind. injection Hfind as <-.
    rewrite Hp in Hl. apply lookup_app_inv in Hl as [n [Hn Hl]].
    rewrite Hn. pose proof (assets_under_complete rest n assets_dir r d Hne Hl) as H.
    destruct p as [pa pp]. simpl in Habs, Hp. now subst.
Qed.

Lemma X2_assets_are_the_files_below_witness :
  FS.unique_names (fs Sample.w0) = true /\
  FS.valid_names (fs Sample.w0) = true /\
  ~ In ".." (parts Sample.assets_dir) /\
  find_all_assets Sample.assets_dir Sample.w0 = (Ok Sample.assets, Sample.w0) /\
  In Sample.hero Sample.assets.
Proof.
  assert (Hplain : ~ In ".." (parts Sample.assets_dir))
    by (simpl; intros [H | [H | []]]; discriminate).
  split; [reflexivity|]. split; [reflexivity|]. split; [exact Hplain|].
  split; [reflexivity|].
  apply (X2_assets_are_the_files_below Sample.assets_dir Sample.w0 Sample.assets
           eq_refl eq_refl Hplain eq_refl Sample.hero).
  split; [reflexivity|]. exists ["img"; "hero.jpg"], true, "JPEG".
  repeat split; try reflexivity; try discriminate.
  simpl. intros [H | [H | []]]; discriminate.
Defined.

(** X3.  In a tree without repeated names no asset is found twice, so the
    count of assets and the totals of the report count each file once. *)
Theorem X3_assets_found_once (assets_dir : Path) (w : world)
    (assets : list Path) :
  FS.unique_names (fs w) = true ->
  find_all_assets assets_dir w = (Ok assets, w) ->
  NoDup assets.
Proof.
  intros Hu Hfind. rewrite find_all_assets_eq in Hfind. injection Hfind as <-.
  destruct (FS.lookup (fs w) (parts assets_dir)) as [n|] eqn:Hl; [|constructor].
  apply assets_under_nodup. exact (lookup_unique _ _ _ Hu Hl).
Qed.

Lemma X3_assets_found_once_witness :
  FS.unique_names (fs Sample.w0) = true /\
  find_all_assets Sample.assets_dir Sample.w0 = (Ok Sample.assets, Sample.w0) /\
  NoDup Sample.assets.
Proof.
  split; [reflexivity|]. split; [reflexivity|].
  exact (X3_assets_found_once Sample.assets_dir Sample.w0 Sample.assets
           eq_refl eq_refl).
Defined.

Section Globs.

Lemma endswith_nil (suffix : string) :
  Str.endswith "" suffix = String.eqb "" suffix || false.
Proof. reflexivity. Qed.

Lemma endswith_cons (c : ascii) (s suffix : string) :
  Str.endswith (String c s) suffix
  = String.eqb (String c s) suffix || Str.endswith s suffix.
Proof. reflexivity. Qed.

Lemma endswith_iff (s suffix : string) :
  Str.endswith s suffix = true <-> exists stem, s = stem ++ suffix.
Proof.
  induction s as [|c s IH]; [rewrite endswith_nil | rewrite endswith_cons].
  - rewrite orb_false_r, String.eqb_eq. split.
    + intros <-. now exists "".
    + intros [stem H]. destruct stem; [exact H | discriminate].
  - rewrite orb_true_iff, String.eqb_eq, IH. split.
    + intros [<- | [stem ->]]; [now exists "" | now exists (String c stem)].
    + intros [[|d stem] H]; simpl in H; [now left|].
      right. exists stem. congruence.
Qed.

Lemma fold_left_snoc {A} (l acc : list A) :
  fold_left (fun xs x => (xs ++ [x])%list) l acc = (acc ++ l)%list.
Proof.
  revert acc; induction l as [|x l IH]; intros acc; simpl.
  - now rewrite app_nil_r.
  - now rewrite IH, <- app_assoc.
Qed.

Lemma find_entry_some (entries : list (string * node)) (name : string) :
  In name (map fst entries) -> exists c, FS.find_entry name entries = Some c.
Proof.
  induction entries as [|[n c] rest IH]; simpl; [contradiction|].
  destruct (String.eqb_spec name n) as [->|Hne]; [eauto|].
  intros [E | Hin]; [congruence | now apply IH].
Qed.

(** What [**/*ext] matches below a directory without repeated names: the
    entries, files or directories, at any depth, whose name ends in
    [ext]. *)
Lemma glob_rec_iff (ext : string) (n : node) : forall (dir p : Path),
  FS.unique_names n = true ->
  In p (FS.glob_rec dir n ext) <->
  absolute p = absolute dir /\
  exists rest name found,
    parts p = (parts dir ++ rest ++ [name])%list /\
    FS.lookup n (rest ++ [name]) = Some found /\
    Str.endswith name ext = true.
Proof.
  induction n as [r d | entries IH] using node_rect'; intros dir p Hu.
  - simpl. split; [contradiction|].
    intros [_ (rest & name & found & _ & Hl & _)].
    destruct rest; discriminate.
  - cbn [FS.glob_rec]. rewrite in_app_iff. split.
    + intros [Hin | Hin].
      * apply in_map_iff in Hin as [name [<- Hin]].
        apply filter_In in Hin as [Hin Hext].
        split; [reflexivity|].
        destruct (find_entry_some _ _ Hin) as [c Hc].
        exists [], name, c. simpl. now rewrite Hc.
      * apply in_flat_map in Hin as [e [He Hin]].
        destruct (unique_names_entry _ _ Hu He) as [Hf Hue].
        apply (proj1 (Forall_forall _ _) IH e He) in Hin as
            [Habs (rest & name & found & Hp & Hl & Hext)]; [|exact Hue].
        split; [exact Habs|]. exists (fst e :: rest), name, found.
        repeat split; [|simpl; now rewrite Hf | exact Hext].
        rewrite Hp. cbn [PathLib.child parts]. now rewrite <- app_assoc.
    + intros [Habs (rest & name & found & Hp & Hl & Hext)].
      destruct rest as [|r rest]; simpl in Hl.
      * left. apply in_map_iff. exists name. split.
        { destruct p as [pa pp]. simpl in *. now subst. }
        apply filter_In. split; [|exact Hext].
        destruct (FS.find_entry name entries) as [c|] eqn:Hf; [|discriminate].
        apply find_entry_in in Hf. apply in_map_iff. now exists (name, c).
      * right. destruct (FS.find_entry r entries) as [c|] eqn:Hf; [|discriminate].
        apply find_entry_in in Hf. apply in_flat_map. exists (r, c).
        split; [exact Hf|].
        destruct (unique_names_entry _ _ Hu Hf) as [_ Huc].
        apply (proj1 (Forall_forall _ _) IH (r, c) Hf); [exact Huc|].
        split; [exact Habs|]. exists rest, name, found.
        repeat split; try assumption.
        rewrite Hp. cbn [PathLib.child parts fst]. now rewrite <- app_assoc.
Qed.

(** The matches of [sub/**/*ext] from a directory, by their paths. *)
Lemma globbed_iff (root : node) (dir : Path) (sub ext : string) (p : Path) :
  FS.unique_names root = true ->
  In p (globbed root dir sub ext) <->
  absolute p = absolute dir /\
  exists rest name found,
    parts p = (parts dir ++ sub :: rest ++ [name])%list /\
    FS.lookup root (parts p) = Some found /\
    Str.endswith name ext = true.
Proof.
  intros Hu. unfold globbed.
  destruct (FS.lookup root (parts (PathLib.child dir sub))) as [n|] eqn:Hn.
  - rewrite (glob_rec_iff ext n _ p (lookup_unique _ _ _ Hu Hn)).
    cbn [PathLib.child absolute parts] in *. split.
    + intros [Habs (rest & name & found & Hp & Hl & Hext)].
      split; [exact Habs|]. exists rest, name, found.
      rewrite <- app_assoc in Hp. repeat split; try assumption.
      rewrite Hp, app_assoc. now rewrite (lookup_app _ _ _ _ Hn).
    + intros [Habs (rest & name & found & Hp & Hl & Hext)].
      split; [exact Habs|]. exists rest, name, found.
      rewrite Hp in Hl. change (sub :: rest ++ [name])%list
        with ([sub] ++ rest ++ [name])%list in *.
      rewrite app_assoc in Hl. rewrite (lookup_app _ _ _ _ Hn) in Hl.
      rewrite <- app_assoc. auto.
  - split; [contradiction|].
    intros [_ (rest & name & found & Hp & Hl & _)].
    rewrite Hp in Hl. change (sub :: rest ++ [name])%list
      with ([sub] ++ rest ++ [name])%list in Hl.
    rewrite app_assoc in Hl. apply lookup_app_inv in Hl as [n [Hn' _]].
    cbn [PathLib.child parts] in Hn. congruence.
Qed.

End Globs.

(** X4.  The markdown files found are exactly the entries of the project
    root itself whose name ends in [.md], files or directories alike;
    nothing below a sub-directory of the root is found. *)
Theorem X4_md_files_top_level_only (root_dir : Path) (w : world)
    (files : list Path) :
  find_all_md_files root_dir w = (Ok files, w) ->
  forall p,
    In p files <->
    exists entries name stem,
      FS.lookup (fs w) (parts root_dir) = Some (Dir entries) /\
      In name (map fst entries) /\ name = stem ++ ".md" /\
      p = PathLib.child root_dir name.
Proof.
  unfold find_all_md_files, bind, glob_star, ret.
  rewrite fold_left_snoc. intros [= <-] p. cbn [app].
  destruct (FS.lookup (fs w) (parts root_dir)) as [[r d|entries]|].
  - split; [contradiction|]. intros (es & _ & _ & H & _). discriminate.
  - unfold FS.glob_star. rewrite in_map_iff. split.
    + intros [name [<- Hin]]. apply filter_In in Hin as [Hin Hext].
      apply endswith_iff in Hext as [stem ->].
      now exists entries, (stem ++ ".md"), stem.
    + intros (es & name & stem & [= <-] & Hin & Hname & ->).
      exists name. split; [reflexivity|]. apply filter_In.
      split; [exact Hin|]. apply endswith_iff. now exists stem.
  - split; [contradiction|]. intros (es & _ & _ & H & _). discriminate.
Qed.

Lemma X4_md_files_top_level_only_witness :
  find_all_md_files Sample.root_dir Sample.w0 = (Ok Sample.md_files, Sample.w0) /\
  In Sample.index_md Sample.md_files.
Proof.
  split; [reflexivity|].
  apply (X4_md_files_top_level_only Sample.root_dir Sample.w0 Sample.md_files
           eq_refl Sample.index_md).
  eexists _, "index.md", "index". split; [reflexivity|].
  split; [simpl; auto|]. split; reflexivity.
Defined.

(** X5.  In a tree without repeated names, the templates found are exactly
    the entries at any depth below [_includes] or [_layouts] whose name
    ends in [.liquid]. *)
Theorem X5_liquid_files_below_includes_and_layouts (root_dir : Path)
    (w : world) (files : list Path) :
  FS.unique_names (fs w) = true ->
  find_all_liquid_files root_dir w = (Ok files, w) ->
  forall p,
    In p files <->
    absolute p = absolute root_dir /\
    exists sub rest name stem found,
      (sub = "_includes" \/ sub = "_layouts") /\
      parts p = (parts root_dir ++ sub :: rest ++ [name])%list /\
      name = stem ++ ".liquid" /\
      FS.lookup (fs w) (parts p) = Some found.
Proof.
  intros Hu. rewrite find_all_liquid_files_eq. intros [= <-] p.
  rewrite in_app_iff, !(globbed_iff _ _ _ _ _ Hu). split.
  - intros [[Habs (rest & name & found & Hp & Hl & Hext)]
           | [Habs (rest & name & found & Hp & Hl & Hext)]];
      apply endswith_iff in Hext as [stem ->];
      (split; [exact Habs|]).
    + exists "_includes", rest, (stem ++ ".liquid"), stem, found. auto.
    + exists "_layouts", rest, (stem ++ ".liquid"), stem, found. auto.
  - intros [Habs (sub & rest & name & stem & found & Hsub & Hp & -> & Hl)].
    assert (Hext : Str.endswith (stem ++ ".liquid") ".liquid" = true)
      by (apply endswith_iff; now exists stem).
    destruct Hsub as [-> | ->]; [left | right];
      (split; [exact Habs|]); exists rest, (stem ++ ".liquid"), found; auto.
Qed.

Lemma X5_liquid_files_below_includes_and_layouts_witness :
  FS.unique_names (fs Sample.w0) = true /\
  find_all_liquid_files Sample.root_dir Sample.w0
    = (Ok Sample.liquid_files, Sample.w0) /\
  In (mkPath true ["site"; "_includes"; "nav"; "bar.liquid"]) Sample.liquid_files.
Proof.
  split; [reflexivity|]. split; [reflexivity|].
  apply (X5_liquid_files_below_includes_and_layouts Sample.root_dir Sample.w0
           Sample.liquid_files eq_refl eq_refl).
  split; [reflexivity|].
  exists "_includes", ["nav"], "bar.liquid", "bar", (File true "<nav>").
  repeat split; auto.
Defined.

(** X6.  In a tree without repeated names, the stylesheets found are
    exactly the entries at any depth below [_sass] whose name ends in
    [.scss]. *)
Theorem X6_scss_files_below_sass (root_dir : Path) (w : world)
    (files : list Path) :
  FS.unique_names (fs w) = true ->
  find_all_scss_files root_dir w = (Ok files, w) ->
  forall p,
    In p files <->
    absolute p = absolute root_dir /\
    exists rest name stem found,
      parts p = (parts root_dir ++ "_sass" :: rest ++ [name])%list /\
      name = stem ++ ".scss" /\
      FS.lookup (fs w) (parts p) = Some found.
Proof.
  intros Hu. rewrite find_all_scss_files_eq. intros [= <-] p.
  rewrite (globbed_iff _ _ _ _ _ Hu). split.
  - intros [Habs (rest & name & found & Hp & Hl & Hext)].
    apply endswith_iff in Hext as [stem ->].
    split; [exact Habs|]. now exists rest, (stem ++ ".scss"), stem, found.
  - intros [Habs (rest & name & stem & found & Hp & -> & Hl)].
    split; [exact Habs|]. exists rest, (stem ++ ".scss"), found.
    repeat split; try assumption. apply endswith_iff. now exists stem.
Qed.

Lemma X6_scss_files_below_sass_witness :
  FS.unique_names (fs Sample.w0) = true /\
  find_all_scss_files Sample.root_dir Sample.w0
    = (Ok Sample.scss_files, Sample.w0) /\
  In Sample.main_scss Sample.scss_files.
Proof.
  split; [reflexivity|]. split; [reflexivity|].
  apply (X6_scss_files_below_sass Sample.root_dir Sample.w0
           Sample.scss_files eq_refl eq_refl).
  split; [reflexivity|].
  exists [], "main.scss", "main", (File true "background: url(hero.jpg)").
  repeat split; auto.
Defined.

(** ** The totals of the report *)

(** X7.  The counts of the report add up: the run prints the number of
    assets found, and the numbers it prints after "Total unused" and
    "Total used" sum to it. *)
Theorem X7_counts_add_up (file__ : Path) (w : world)
    (assets md_files liquid_files scss_files : list Path) :
  FS.unique_names (fs w) = true ->
  find_all_assets (PathLib.child (PathLib.parent file__) "assets") w = (Ok assets, w) ->
  find_all_md_files (PathLib.parent file__) w = (Ok md_files, w) ->
  find_all_liquid_files (PathLib.parent file__) w = (Ok liquid_files, w) ->
  find_all_scss_files (PathLib.parent file__) w = (Ok scss_files, w) ->
  all_readable (fs w) (md_files ++ liquid_files ++ scss_files)%list = true ->
  exists (n_used n_unused total_size : nat) (middle : list string),
    n_used + n_unused = length assets /\
    main file__ w =
      (Ok tt, mkWorld (fs w)
         (stdout w ++
          [("Scanning for assets and references..." ++ nl)%string;
           ("Found " ++ str_of_nat (length assets) ++ " assets")%string;
           ("Found " ++ str_of_nat (length md_files) ++ " markdown files")%string;
           ("Found " ++ str_of_nat (length liquid_files) ++ " liquid templates")%string;
           ("Found " ++ str_of_nat (length scss_files) ++ " scss files" ++ nl)%string]
          ++ middle ++
          [(nl ++ "Total unused: " ++ str_of_nat n_unused
               ++ " files, " ++ format_commas total_size ++ " bytes")%string;
           ("Total used: " ++ str_of_nat n_used ++ " files")%string])%list).
Proof.
  intros Hu Ha Hm Hl Hs Hread. apply all_readable_Forall in Hread.
  rewrite (run_main _ _ _ _ _ _ Ha Hm Hl Hs Hu Hread).
  set (assets_dir := PathLib.child (PathLib.parent file__) "assets").
  set (used := is_used assets_dir md_files liquid_files scss_files w).
  exists (length (filter used (sorted assets))),
         (length (filter (fun a => negb (used a)) (sorted assets))).
  exists (list_sum (map (size_of (fs w))
                        (filter (fun a => negb (used a)) (sorted assets)))).
  exists ([bar; "USED ASSETS"; bar]
          ++ flat_map (used_lines assets_dir)
               (map (fun a => (a, asset_refs assets_dir md_files liquid_files
                                     scss_files w a))
                    (filter used (sorted assets)))
          ++ [(nl ++ bar)%string; "UNUSED ASSETS (not referenced anywhere)"; bar]
          ++ map (unused_line assets_dir (fs w))
               (filter (fun a => negb (used a)) (sorted assets)))%list.
  split.
  - rewrite filter_length. apply Permutation_length, sorted_perm.
  - unfold report_text, report_head, total_unused_line.
    rewrite length_map, <- !app_assoc. reflexivity.
Qed.

Lemma X7_counts_add_up_witness :
  FS.unique_names (fs Sample.w0) = true /\
  all_readable (fs Sample.w0)
    (Sample.md_files ++ Sample.liquid_files ++ Sample.scss_files)%list = true /\
  exists (n_used n_unused : nat),
    n_used + n_unused = length Sample.assets.
Proof.
  split; [reflexivity|]. split; [reflexivity|].
  destruct (X7_counts_add_up Sample.script Sample.w0 Sample.assets
              Sample.md_files Sample.liquid_files Sample.scss_files
              eq_refl eq_refl eq_refl eq_refl eq_refl eq_refl)
    as (n_used & n_unused & _ & _ & Hsum & _).
  now exists n_used, n_unused.
Defined.

(** ** What is recorded for a template or a stylesheet *)

Lemma entry_of_last_two (f : Path) (before : list string) (d n : string) :
  parts f = (before ++ [d; n])%list -> entry_of f = d ++ "/" ++ n.
Proof.
  intros Hp. unfold entry_of.
  assert (Hrel : relative_to f (PathLib.parent (PathLib.parent f))
                 = Ok (mkPath false [d; n])).
  { apply relative_to_iff. cbn [PathLib.parent absolute parts].
    repeat split. rewrite Hp.
    rewrite removelast_app by discriminate. cbn [removelast].
    rewrite removelast_app by discriminate. cbn [removelast].
    now rewrite app_nil_r. }
  rewrite Hrel. reflexivity.
Qed.

(** X8.  A template or stylesheet that contains a pattern is recorded by
    the last two components of its path, the name of its directory and its
    own name, whatever lies above: files in different directories of the
    same name are recorded alike. *)
Theorem X8_recorded_by_directory_and_name (asset assets_dir f : Path)
    (w : world) (patterns : list string) (text pattern : string)
    (before : list string) (d n : string) :
  build_patterns asset assets_dir = Ok patterns ->
  text_of (fs w) f = Ok text ->
  In pattern patterns -> Str.str_in pattern text = true ->
  parts f = (before ++ [d; n])%list ->
  check_asset_usage asset [] [f] [] assets_dir w
    = (Ok (mkReferences [] [d ++ "/" ++ n] []), w) /\
  check_asset_usage asset [] [] [f] assets_dir w
    = (Ok (mkReferences [] [] [d ++ "/" ++ n]), w).
Proof.
  intros Hp Htext Hin Hocc Hparts.
  assert (Hf : Forall (readable (fs w)) [f])
    by (constructor; [now exists text | constructor]).
  assert (Hhit : hit patterns (fs w) f = true).
  { unfold hit. rewrite (content_text _ _ _ Htext).
    exact (contains_any_in _ _ _ Hin Hocc). }
  split.
  - rewrite (check_asset_usage_ok _ _ [] [f] [] _ _ Hp Hf).
    unfold refs_of. cbn [filter map]. rewrite Hhit. cbn [map].
    now rewrite (entry_of_last_two _ _ _ _ Hparts).
  - rewrite (check_asset_usage_ok _ _ [] [] [f] _ _ Hp Hf).
    unfold refs_of. cbn [filter map]. rewrite Hhit. cbn [map].
    now rewrite (entry_of_last_two _ _ _ _ Hparts).
Qed.

Lemma X8_recorded_by_directory_and_name_witness :
  check_asset_usage Sample.hero [] [] [Sample.main_scss] Sample.assets_dir Sample.w0
    = (Ok (mkReferences [] [] ["_sass/main.scss"]), Sample.w0).
Proof.
  exact (proj2 (X8_recorded_by_directory_and_name Sample.hero Sample.assets_dir
                  Sample.main_scss Sample.w0 _ "background: url(hero.jpg)"
                  "hero.jpg" ["site"] "_sass" "main.scss"
                  eq_refl eq_refl (or_intror (or_intror (or_introl eq_refl)))
                  eq_refl eq_refl)).
Defined.

(** ** Patterns are never empty *)

Lemma str_in_empty (p : string) : Str.str_in p "" = true -> p = "".
Proof.
  intros H. apply str_in_iff in H as [a [b H]].
  destruct a; [|discriminate]. destruct p; [reflexivity | discriminate].
Qed.

Lemma stem_nonempty (p : Path) : PathLib.name p <> "" -> PathLib.stem p <> "".
Proof.
  unfold PathLib.stem. intros Hn.
  destruct (Str.rfind_dot (PathLib.name p)) as [i|]; [|exact Hn].
  destruct ((0 <? i) && (i <? String.length (PathLib.name p) - 1))%nat eqn:E;
    [|exact Hn].
  apply andb_true_iff in E as [Hi _]. apply Nat.ltb_lt in Hi.
  destruct i; [lia|]. destruct (PathLib.name p); [congruence | discriminate].
Qed.

(** X9.  No pattern of an asset with a non-empty name is the empty string,
    which every text contains: a source file with no text is recorded for
    no asset. *)
Theorem X9_no_empty_pattern (asset assets_dir : Path) (patterns : list string) :
  build_patterns asset assets_dir = Ok patterns ->
  PathLib.name asset <> "" ->
  (forall pattern, In pattern patterns -> pattern <> "") /\
  (forall pattern, In pattern patterns -> Str.str_in pattern "" = false).
Proof.
  intros Hp Hname.
  assert (Hall : forall pattern, In pattern patterns -> pattern <> "").
  { destruct (relative_to asset (PathLib.parent assets_dir)) as [rel|e] eqn:Hrel;
      [|unfold build_patterns in Hp; rewrite Hrel in Hp; discriminate].
    assert (Hstr : PathLib.str rel <> "").
    { intros E. destruct (parts rel) as [|x xs] eqn:Hparts.
      - apply relative_to_iff in Hrel as (_ & Habs & _).
        unfold PathLib.str in E. rewrite Habs, Hparts in E. discriminate.
      - assert (Hne : parts rel <> []) by (rewrite Hparts; discriminate).
        destruct (name_in_relative _ _ _ Hrel Hne) as [_ Hin].
        rewrite E in Hin. now apply str_in_empty in Hin. }
    rewrite (build_patterns_eq _ _ _ Hrel) in Hp.
    assert (Hpat : patterns =
              ([PathLib.str rel; ("/" ++ PathLib.str rel)%string; PathLib.name asset]
               ++ if is_image asset then [PathLib.stem asset] else [])%list)
      by congruence.
    intros pattern Hin. rewrite Hpat in Hin.
    apply in_app_or in Hin as [[<- | [<- | [<- | []]]] | Hin];
      [exact Hstr | discriminate | exact Hname |].
    destruct (is_image asset); [|contradiction].
    destruct Hin as [<- | []]. now apply stem_nonempty. }
  split; [exact Hall|]. intros pattern Hin.
  destruct (Str.str_in pattern "") eqn:E; [|reflexivity].
  apply str_in_empty in E. now apply Hall in Hin.
Qed.

Lemma X9_no_empty_pattern_witness :
  build_patterns Sample.logo Sample.assets_dir
    = Ok ["assets/img/logo.png"; "/assets/img/logo.png"; "logo.png"; "logo"] /\
  PathLib.name Sample.logo <> "" /\
  Str.str_in "logo" "" = false.
Proof.
  split; [reflexivity|]. split; [discriminate|].
  apply (proj2 (X9_no_empty_pattern Sample.logo Sample.assets_dir _ eq_refl
                  ltac:(discriminate))).
  simpl. auto.
Defined.

(** ** Three references per category *)

Lemma truthy_firstn {A} (l : list A) : truthy l = truthy (firstn 3 l).
Proof. now destruct l. Qed.

Lemma for_related {A S} (R : A -> A -> Prop) (body : A -> S -> M S)
    (xs ys : list A) :
  Forall2 R xs ys ->
  (forall x y s w, R x y -> body x s w = body y s w) ->
  forall s w, for_ xs body s w = for_ ys body s w.
Proof.
  intros Hrel Hbody. induction Hrel as [|x y xs ys Hxy _ IH]; intros s w.
  - reflexivity.
  - simpl. apply bind_ext; [now apply Hbody | exact IH].
Qed.

(** X10.  The section on the used assets names at most three files per
    category: what it prints depends on the first three entries of each
    reference list only. *)
Theorem X10_summary_names_three (assets_dir : Path)
    (used_assets used_assets' : list (Path * references)) (w : world) :
  Forall2 (fun e e' =>
             fst e = fst e' /\
             firstn 3 (md (snd e)) = firstn 3 (md (snd e')) /\
             firstn 3 (liquid (snd e)) = firstn 3 (liquid (snd e')) /\
             firstn 3 (scss (snd e)) = firstn 3 (scss (snd e')))
          used_assets used_assets' ->
  report_used used_assets assets_dir w = report_used used_assets' assets_dir w.
Proof.
  intros Hrel. unfold report_used.
  do 3 (apply bind_ext; [reflexivity | intros _ ?]).
  revert w'1. apply (for_related _ _ _ _ Hrel).
  intros [a r] [a' r'] [] w1 (Ha & Hm & Hl & Hs). cbn [fst snd] in Ha, Hm, Hl, Hs.
  subst a'. cbv zeta.
  rewrite (truthy_firstn (md r)), (truthy_firstn (liquid r)),
          (truthy_firstn (scss r)).
  rewrite (truthy_firstn (md r')), (truthy_firstn (liquid r')),
          (truthy_firstn (scss r')).
  now rewrite Hm, Hl, Hs.
Qed.

Lemma X10_summary_names_three_witness :
  report_used
    [(Sample.logo, mkReferences ["a.md"; "b.md"; "c.md"; "d.md"] [] [])]
    Sample.assets_dir Sample.w0
  = report_used
    [(Sample.logo, mkReferences ["a.md"; "b.md"; "c.md"; "e.md"; "f.md"] [] [])]
    Sample.assets_dir Sample.w0.
Proof.
  apply X10_summary_names_three.
  constructor; [|constructor]. repeat split; reflexivity.
Defined.

(** ** Projects without sources, projects without assets *)

(** X11.  With no markdown, template or stylesheet file, every asset found
    is unused. *)
Theorem X11_no_sources_all_unused (assets_dir : Path) (w : world)
    (assets : list Path) :
  find_all_assets assets_dir w = (Ok assets, w) ->
  classify assets [] [] [] assets_dir w = (Ok ([], sorted assets), w).
Proof.
  intros Hfind.
  rewrite (classify_ok assets_dir [] [] [] w (Forall_nil _) assets
             (enumerated_has_patterns _ _ _ Hfind)).
  assert (Hused : forall l,
            filter (is_used assets_dir [] [] [] w) l = [] /\
            filter (fun a => negb (is_used assets_dir [] [] [] w a)) l = l).
  { induction l as [|a l [IH1 IH2]]; [now split|].
    cbn [filter]. change (is_used assets_dir [] [] [] w a) with false.
    cbn [negb]. now rewrite IH1, IH2. }
  destruct (Hused (sorted assets)) as [-> ->]. reflexivity.
Qed.

Lemma X11_no_sources_all_unused_witness :
  find_all_assets Sample.assets_dir Sample.w0 = (Ok Sample.assets, Sample.w0) /\
  classify Sample.assets [] [] [] Sample.assets_dir Sample.w0
    = (Ok ([], sorted Sample.assets), Sample.w0).
Proof.
  split; [reflexivity|].
  exact (X11_no_sources_all_unused Sample.assets_dir Sample.w0 Sample.assets
           eq_refl).
Defined.

(** X12.  The sources are read for the sake of an asset only: when no asset
    is found, the run completes without opening any source file, readable
    or not, and reports zero used and zero unused assets. *)
Theorem X12_no_assets_no_reading (file__ : Path) (w : world) :
  find_all_assets (PathLib.child (PathLib.parent file__) "assets") w = (Ok [], w) ->
  exists before,
    main file__ w =
    (Ok tt, mkWorld (fs w)
       (stdout w ++ before ++
        [(nl ++ "Total unused: 0 files, 0 bytes")%string;
         "Total used: 0 files"])%list).
Proof.
  intros Hfa.
  destruct (find_all_md_files_total w (PathLib.parent file__)) as [md_files Hmd].
  rewrite (run_main_with file__ w [] _ _ _ Hfa Hmd
             (find_all_liquid_files_eq w _) (find_all_scss_files_eq w _) [] []
             eq_refl (Forall_nil _) (Forall_nil _)).
  eexists (report_head _ _ _ _ _ _ _ _). reflexivity.
Qed.

Lemma X12_no_assets_no_reading_witness :
  find_all_assets (PathLib.child (PathLib.parent Sample.script) "assets") Idle.w0
    = (Ok [], Idle.w0) /\
  text_of (fs Idle.w0) Sample.index_md = Raise PermissionError /\
  fst (main Sample.script Idle.w0) = Ok tt.
Proof.
  split; [reflexivity|]. split; [reflexivity|].
  destruct (X12_no_assets_no_reading Sample.script Idle.w0 eq_refl) as [before H].
  now rewrite H.
Defined.

(** ** Names inside other names *)

Section UsedBy.

Variable assets_dir : Path.
Variables md_files liquid_files scss_files : list Path.
Variable w : world.

(** An asset has a reference exactly when some source file contains one
    of its patterns. *)
Lemma is_used_existsb (asset : Path) :
  is_used assets_dir md_files liquid_files scss_files w asset =
  existsb (hit (patterns_of assets_dir asset) (fs w))
          (md_files ++ liquid_files ++ scss_files)%list.
Proof.
  unfold is_used, asset_refs, has_refs, refs_of. cbn [md liquid scss existsb].
  rewrite !existsb_app, orb_false_r.
  set (h := hit (patterns_of assets_dir asset) (fs w)).
  assert (H : forall {B} (g : Path -> B) l,
            truthy (map g (filter h l)) = existsb h l).
  { intros B g l. induction l as [|f l IH]; [reflexivity|].
    simpl. destruct (h f); [reflexivity | exact IH]. }
  now rewrite !H.
Qed.

End UsedBy.

Lemma name_is_pattern (asset assets_dir : Path) (patterns : list string) :
  build_patterns asset assets_dir = Ok patterns ->
  In (PathLib.name asset) patterns.
Proof.
  intros Hp.
  destruct (relative_to asset (PathLib.parent assets_dir)) as [rel|e] eqn:Hrel;
    [|unfold build_patterns in Hp; rewrite Hrel in Hp; discriminate].
  rewrite (build_patterns_eq _ _ _ Hrel) in Hp.
  assert (Hpat : patterns =
            ([PathLib.str rel; ("/" ++ PathLib.str rel)%string; PathLib.name asset]
             ++ if is_image asset then [PathLib.stem asset] else [])%list)
    by congruence.
  rewrite Hpat. apply in_or_app. left. simpl. auto.
Qed.

(** X13.  Matching by containment takes a name inside another name for a
    reference: when the file name of one asset is part of the file name of
    another, every source file that names the second makes the first used
    as well. *)
Theorem X13_name_inside_another_name (assets_dir : Path) (w : world)
    (assets md_files liquid_files scss_files : list Path) :
  find_all_assets assets_dir w = (Ok assets, w) ->
  all_readable (fs w) (md_files ++ liquid_files ++ scss_files)%list = true ->
  exists used_assets unused_assets,
    classify assets md_files liquid_files scss_files assets_dir w
      = (Ok (used_assets, unused_assets), w) /\
    forall a b f text,
      In a assets -> In b assets ->
      Str.str_in (PathLib.name a) (PathLib.name b) = true ->
      In f (md_files ++ liquid_files ++ scss_files)%list ->
      text_of (fs w) f = Ok text ->
      Str.str_in (PathLib.name b) text = true ->
      In a (map fst used_assets) /\ In b (map fst used_assets).
Proof.
  intros Hfind Hread. apply all_readable_Forall in Hread.
  pose proof (enumerated_has_patterns _ _ _ Hfind) as Hpat.
  do 2 eexists. split; [apply (classify_ok _ _ _ _ _ Hread _ Hpat)|].
  intros a b f text Ha Hb Hab Hf Htext Hocc.
  assert (Hused : forall c, In c assets ->
            Str.str_in (PathLib.name c) text = true ->
            In c (map fst
                    (map (fun x => (x, asset_refs assets_dir md_files liquid_files
                                         scss_files w x))
                         (filter (is_used assets_dir md_files liquid_files
                                          scss_files w) (sorted assets))))).
  { intros c Hc Hname. rewrite map_map. cbn [fst]. rewrite map_id.
    apply filter_In. split; [now apply sorted_in|].
    rewrite is_used_existsb. apply existsb_exists. exists f.
    split; [exact Hf|].
    destruct (proj1 (Forall_forall _ _) Hpat c Hc) as [patterns Hp].
    unfold hit, patterns_of. rewrite Hp, (content_text _ _ _ Htext).
    apply (contains_any_in _ _ (PathLib.name c)); [|exact Hname].
    exact (name_is_pattern _ _ _ Hp). }
  split; [|now apply Hused].
  apply Hused; [exact Ha|]. exact (str_in_trans _ _ _ Hab Hocc).
Qed.

Lemma X13_name_inside_another_name_witness :
  find_all_assets Nested.assets_dir Nested.w0
    = (Ok [Nested.logo; Nested.big_logo], Nested.w0) /\
  all_readable (fs Nested.w0) [Nested.index_md] = true /\
  Str.str_in (PathLib.name Nested.logo) (PathLib.name Nested.big_logo) = true /\
  Str.str_in (PathLib.name Nested.logo) (PathLib.name Nested.big_logo)
    <> Str.str_in (PathLib.name Nested.big_logo) (PathLib.name Nested.logo) /\
  exists used_assets unused_assets,
    classify [Nested.logo; Nested.big_logo] [Nested.index_md] [] []
             Nested.assets_dir Nested.w0
      = (Ok (used_assets, unused_assets), Nested.w0) /\
    In Nested.logo (map fst used_assets) /\
    In Nested.big_logo (map fst used_assets).
Proof.
  split; [reflexivity|]. split; [reflexivity|]. split; [reflexivity|].
  split; [discriminate|].
  destruct (X13_name_inside_another_name Nested.assets_dir Nested.w0
              [Nested.logo; Nested.big_logo] [Nested.index_md] [] []
              eq_refl eq_refl) as [used [unused [Hc H]]].
  exists used, unused. split; [exact Hc|].
  apply (H Nested.logo Nested.big_logo Nested.index_md
           "![big](assets/big-logo.png)");
    try reflexivity; simpl; auto.
Defined.

(** ** The order of the source files *)

Lemma existsb_perm {A} (h : A -> bool) (l l' : list A) :
  Permutation l l' -> existsb h l = existsb h l'.
Proof.
  intros Hp. destruct (existsb h l') eqn:E.
  - apply existsb_exists in E as [x [Hx Hh]]. apply existsb_exists.
    exists x. split; [|exact Hh]. apply (Permutation_in _ (Permutation_sym Hp) Hx).
  - destruct (existsb h l) eqn:E'; [|reflexivity].
    apply existsb_exists in E' as [x [Hx Hh]].
    assert (Ht : existsb h l' = true)
      by (apply existsb_exists; exists x; split;
          [apply (Permutation_in _ Hp Hx) | exact Hh]).
    congruence.
Qed.

(** X14.  Which assets are used does not depend on the order in which the
    source files of a category are listed: listing them in another order
    gives the same unused assets and the same used assets (only the order
    of the entries of a reference list follows the listing). *)
Theorem X14_source_order_irrelevant (assets_dir : Path) (w : world)
    (assets md_files liquid_files scss_files
            md_files' liquid_files' scss_files' : list Path) :
  find_all_assets assets_dir w = (Ok assets, w) ->
  all_readable (fs w) (md_files ++ liquid_files ++ scss_files)%list = true ->
  Permutation md_files md_files' ->
  Permutation liquid_files liquid_files' ->
  Permutation scss_files scss_files' ->
  exists used_assets used_assets' unused_assets,
    classify assets md_files liquid_files scss_files assets_dir w
      = (Ok (used_assets, unused_assets), w) /\
    classify assets md_files' liquid_files' scss_files' assets_dir w
      = (Ok (used_assets', unused_assets), w) /\
    map fst used_assets = map fst used_assets'.
Proof.
  intros Hfind Hread Hm Hl Hs. apply all_readable_Forall in Hread.
  pose proof (enumerated_has_patterns _ _ _ Hfind) as Hpat.
  assert (Hperm : Permutation (md_files ++ liquid_files ++ scss_files)%list
                              (md_files' ++ liquid_files' ++ scss_files')%list)
    by (repeat apply Permutation_app; assumption).
  assert (Hread' : Forall (readable (fs w))
                     (md_files' ++ liquid_files' ++ scss_files')%list)
    by (exact (Permutation_Forall Hperm Hread)).
  assert (Hsame : forall a,
            is_used assets_dir md_files liquid_files scss_files w a
            = is_used assets_dir md_files' liquid_files' scss_files' w a).
  { intros a. rewrite !is_used_existsb. now apply existsb_perm. }
  do 3 eexists. split; [apply (classify_ok _ _ _ _ _ Hread _ Hpat)|].
  split.
  - rewrite (classify_ok _ _ _ _ _ Hread' _ Hpat). f_equal. f_equal. f_equal.
    apply filter_ext. intros a. now rewrite Hsame.
  - rewrite !map_map. cbn [fst]. rewrite !map_id.
    apply filter_ext. exact Hsame.
Qed.

Lemma X14_source_order_irrelevant_witness :
  find_all_assets Sample.assets_dir Sample.w0 = (Ok Sample.assets, Sample.w0) /\
  all_readable (fs Sample.w0)
    (Sample.md_files ++ Sample.liquid_files ++ Sample.scss_files)%list = true /\
  Permutation Sample.md_files (List.rev Sample.md_files) /\
  exists used_assets used_assets' unused_assets,
    classify Sample.assets Sample.md_files Sample.liquid_files Sample.scss_files
             Sample.assets_dir Sample.w0
      = (Ok (used_assets, unused_assets), Sample.w0) /\
    classify Sample.assets (List.rev Sample.md_files) (List.rev Sample.liquid_files)
             Sample.scss_files Sample.assets_dir Sample.w0
      = (Ok (used_assets', unused_assets), Sample.w0).
Proof.
  split; [reflexivity|]. split; [reflexivity|].
  split; [apply Permutation_rev|].
  destruct (X14_source_order_irrelevant Sample.assets_dir Sample.w0
              Sample.assets Sample.md_files Sample.liquid_files
              Sample.scss_files (List.rev Sample.md_files) (List.rev Sample.liquid_files)
              Sample.scss_files eq_refl eq_refl
              (Permutation_rev _) (Permutation_rev _) (Permutation_refl _))
    as (used & used' & unused & H1 & H2 & _).
  exists used, used', unused. split; [exact H1 | exact H2].
Defined.

(** ** Assets outside the project *)

(** X15.  An asset that is not below the parent of the assets directory
    has no path relative to it: the check raises [ValueError] and reads no
    source file. *)
Theorem X15_asset_outside_raises (asset assets_dir : Path)
    (md_files liquid_files scss_files : list Path) (w : world) :
  absolute asset <> absolute assets_dir \/
  (forall rest,
     parts asset <> (parts (PathLib.parent assets_dir) ++ rest)%list) ->
  check_asset_usage asset md_files liquid_files scss_files assets_dir w
  = (Raise ValueError, w).
Proof.
  intros Hout. apply check_asset_usage_no_patterns.
  unfold build_patterns, relative_to.
  cbn [PathLib.parent absolute parts].
  destruct (Bool.eqb (absolute asset) (absolute assets_dir)) eqn:Habs;
    [|reflexivity].
  destruct (PathLib.strip_prefix (removelast (parts assets_dir)) (parts asset))
    as [rest|] eqn:Hs; [|reflexivity].
  apply strip_prefix_iff in Hs. apply eqb_prop in Habs.
  destruct Hout as [Hne | Hne]; [congruence|].
  now destruct (Hne rest).
Qed.

Lemma X15_asset_outside_raises_witness :
  check_asset_usage (mkPath true ["elsewhere"; "logo.png"])
                    Sample.md_files Sample.liquid_files Sample.scss_files
                    Sample.assets_dir Sample.w0
  = (Raise ValueError, Sample.w0).
Proof.
  apply X15_asset_outside_raises. right. intros rest. discriminate.
Defined.

(** ** The shape of the report *)

Lemma flat_map_length_2 {A} (g : A -> list string) (l : list A) :
  (forall x, length (g x) = 2) -> length (flat_map g l) = 2 * length l.
Proof.
  intros Hg. induction l as [|x l IH]; [reflexivity|].
  cbn [flat_map]. rewrite length_app, Hg, IH. simpl. lia.
Qed.

(** X16.  The report has two lines for each used asset, one line for each
    unused asset, and thirteen lines of headings, counts and totals. *)
Theorem X16_lines_of_the_report (file__ : Path) (w w' : world)
    (assets md_files liquid_files scss_files : list Path)
    (used_assets : list (Path * references)) (unused_assets : list Path) :
  FS.unique_names (fs w) = true ->
  find_all_assets (PathLib.child (PathLib.parent file__) "assets") w = (Ok assets, w) ->
  find_all_md_files (PathLib.parent file__) w = (Ok md_files, w) ->
  find_all_liquid_files (PathLib.parent file__) w = (Ok liquid_files, w) ->
  find_all_scss_files (PathLib.parent file__) w = (Ok scss_files, w) ->
  all_readable (fs w) (md_files ++ liquid_files ++ scss_files)%list = true ->
  classify assets md_files liquid_files scss_files
           (PathLib.child (PathLib.parent file__) "assets") w
    = (Ok (used_assets, unused_assets), w) ->
  main file__ w = (Ok tt, w') ->
  length (stdout w') =
  length (stdout w) + 13 + 2 * length used_assets + length unused_assets.
Proof.
  intros Hu Ha Hm Hl Hs Hread Hc Hmain. apply all_readable_Forall in Hread.
  rewrite (run_classify _ _ _ _ _ _ Ha Hread) in Hc.
  injection Hc as <- <-.
  rewrite (run_main _ _ _ _ _ _ Ha Hm Hl Hs Hu Hread) in Hmain.
  injection Hmain as <-. cbn [stdout].
  unfold report_text, report_head. rewrite !length_app.
  rewrite (flat_map_length_2 (used_lines _) _ (fun _ => eq_refl)), !length_map.
  simpl. lia.
Qed.

Lemma X16_lines_of_the_report_witness :
  exists w', main Sample.script Sample.w0 = (Ok tt, w') /\
             length (stdout w') = 0 + 13 + 2 * 3 + 1.
Proof.
  assert (Hmain : main Sample.script Sample.w0
                  = (Ok tt, snd (main Sample.script Sample.w0)))
    by (vm_compute; reflexivity).
  assert (Hclassify :
            classify Sample.assets Sample.md_files Sample.liquid_files
                     Sample.scss_files
                     (PathLib.child (PathLib.parent Sample.script) "assets")
                     Sample.w0
            = (Ok ([(mkPath true ["site"; "assets"; "fonts.css"],
                     mkReferences [] ["_includes/head.liquid"] []);
                    (Sample.hero, mkReferences [] [] ["_sass/main.scss"]);
                    (Sample.logo, mkReferences ["index.md"] [] [])],
                   [Sample.logo_2x]), Sample.w0))
    by (vm_compute; reflexivity).
  exists (snd (main Sample.script Sample.w0)). split; [exact Hmain|].
  exact (X16_lines_of_the_report Sample.script Sample.w0 _ Sample.assets
           Sample.md_files Sample.liquid_files Sample.scss_files _ _
           eq_refl eq_refl eq_refl eq_refl eq_refl eq_refl Hclassify Hmain).
Defined.

(** ** What the two lists hold *)

(** X17.  Every entry of [used_assets] carries the references the checker
    returns for its asset, one list of which is not empty; for every asset
    in [unused_assets] the checker returns three empty lists. *)
Theorem X17_entries_carry_their_references (assets_dir : Path) (w : world)
    (assets md_files liquid_files scss_files : list Path)
    (used_assets : list (Path * references)) (unused_assets : list Path) :
  find_all_assets assets_dir w = (Ok assets, w) ->
  all_readable (fs w) (md_files ++ liquid_files ++ scss_files)%list = true ->
  classify assets md_files liquid_files scss_files assets_dir w
    = (Ok (used_assets, unused_assets), w) ->
  (forall asset refs, In (asset, refs) used_assets ->
     check_asset_usage asset md_files liquid_files scss_files assets_dir w
       = (Ok refs, w) /\
     (md refs <> [] \/ liquid refs <> [] \/ scss refs <> [])) /\
  (forall asset, In asset unused_assets ->
     check_asset_usage asset md_files liquid_files scss_files assets_dir w
       = (Ok (mkReferences [] [] []), w)).
Proof.
  intros Hfind Hread Hc. apply all_readable_Forall in Hread.
  pose proof (enumerated_has_patterns _ _ _ Hfind) as Hpat.
  rewrite (classify_ok _ _ _ _ _ Hread _ Hpat) in Hc. injection Hc as <- <-.
  split.
  - intros asset refs Hin. apply in_map_iff in Hin as [a [[= <- <-] Hin]].
    apply filter_In in Hin as [Hin Hused]. split.
    + apply check_asset_usage_refs; [exact Hread|].
      apply (proj1 (Forall_forall _ _) Hpat). now apply sorted_in.
    + now apply has_refs_true.
  - intros asset Hin. apply filter_In in Hin as [Hin Hun].
    apply negb_true_iff in Hun.
    rewrite (check_asset_usage_refs _ _ _ _ _ Hread asset)
      by (apply (proj1 (Forall_forall _ _) Hpat); now apply sorted_in).
    apply has_refs_false in Hun as (H1 & H2 & H3).
    destruct (asset_refs assets_dir md_files liquid_files scss_files w asset)
      as [m l s]. simpl in *. now subst.
Qed.

Lemma X17_entries_carry_their_references_witness :
  check_asset_usage Sample.logo_2x Sample.md_files Sample.liquid_files
                    Sample.scss_files Sample.assets_dir Sample.w0
    = (Ok (mkReferences [] [] []), Sample.w0).
Proof.
  assert (Hclassify :
            classify Sample.assets Sample.md_files Sample.liquid_files
                     Sample.scss_files Sample.assets_dir Sample.w0
            = (Ok ([(mkPath true ["site"; "assets"; "fonts.css"],
                     mkReferences [] ["_includes/head.liquid"] []);
                    (Sample.hero, mkReferences [] [] ["_sass/main.scss"]);
                    (Sample.logo, mkReferences ["index.md"] [] [])],
                   [Sample.logo_2x]), Sample.w0))
    by (vm_compute; reflexivity).
  apply (proj2 (X17_entries_carry_their_references Sample.assets_dir Sample.w0
                  Sample.assets Sample.md_files Sample.liquid_files
                  Sample.scss_files _ _ eq_refl eq_refl Hclassify)).
  left. reflexivity.
Defined.
